(** * Abaqus material extractor: a shallow embedding of
      [inp-material-extractor.py] and the properties of its parser and
      of its CSV flattening.

    Text is modelled as [string] (8-bit characters).  The model follows
    Python on ASCII text: characters above 127 are treated as ordinary
    characters without case, neither blank nor digit.

    Python dictionaries keep insertion order, and the CSV export walks
    them in that order, so a dictionary is an association list with
    unique keys: assignment to a present key replaces the value in
    place, assignment to a fresh key appends at the end.

    A Python exception ([KeyError] on a missing key, [AttributeError]
    on [append] to a value that is no list) is [None]. *)

From Stdlib Require Import String Ascii List ZArith NArith Bool Arith Lia.
From Stdlib Require Import DecimalString DecimalNat.
Import ListNotations.
Open Scope string_scope.
Open Scope bool_scope.

(* ================================================================== *)
(** ** Python string primitives (ASCII) *)
(* ================================================================== *)

Module PyStr.

Definition code (c : ascii) : nat := nat_of_ascii c.

Definition between (lo hi : nat) (c : ascii) : bool :=
  Nat.leb lo (code c) && Nat.leb (code c) hi.

(** [str.isspace] on ASCII, which is also what [\s] matches:
    TAB, LF, VT, FF, CR, FS, GS, RS, US and the space. *)
Definition is_space (c : ascii) : bool :=
  between 9 13 c || between 28 32 c.

Definition is_digit (c : ascii) : bool := between 48 57 c.
Definition is_lower (c : ascii) : bool := between 97 122 c.
Definition is_upper (c : ascii) : bool := between 65 90 c.
Definition is_alpha (c : ascii) : bool := is_lower c || is_upper c.

Definition upper_char (c : ascii) : ascii :=
  if is_lower c then ascii_of_nat (code c - 32) else c.
Definition lower_char (c : ascii) : ascii :=
  if is_upper c then ascii_of_nat (code c + 32) else c.

Fixpoint map_chars (f : ascii -> ascii) (s : string) : string :=
  match s with
  | EmptyString => EmptyString
  | String c t => String (f c) (map_chars f t)
  end.

Definition upper : string -> string := map_chars upper_char.
Definition lower : string -> string := map_chars lower_char.

Definition is_empty (s : string) : bool :=
  match s with EmptyString => true | _ => false end.

(** [p] is a prefix of [s]. *)
Fixpoint prefixes (p s : string) : bool :=
  match p, s with
  | EmptyString, _ => true
  | String a p', String b s' => Ascii.eqb a b && prefixes p' s'
  | String _ _, EmptyString => false
  end.

(** [s.startswith(p)] *)
Definition startswith (s p : string) : bool := prefixes p s.

Fixpoint drop_while (p : ascii -> bool) (s : string) : string :=
  match s with
  | EmptyString => EmptyString
  | String c t => if p c then drop_while p t else s
  end.

Fixpoint take_while (p : ascii -> bool) (s : string) : string :=
  match s with
  | EmptyString => EmptyString
  | String c t => if p c then String c (take_while p t) else EmptyString
  end.

Definition lstrip : string -> string := drop_while is_space.

Fixpoint rstrip (s : string) : string :=
  match s with
  | EmptyString => EmptyString
  | String c t =>
      let t' := rstrip t in
      if is_space c && is_empty t' then EmptyString else String c t'
  end.

Definition strip (s : string) : string := rstrip (lstrip s).

(** [sub in s] *)
Fixpoint contains (sub s : string) : bool :=
  prefixes sub s ||
  match s with
  | EmptyString => false
  | String _ t => contains sub t
  end.

(** [s.split(sep)[0]] for a non-empty separator: the text before the
    first occurrence of [sep], the whole of [s] when there is none. *)
Fixpoint split_head (sep s : string) : string :=
  match s with
  | EmptyString => EmptyString
  | String c t => if prefixes sep s then EmptyString
                  else String c (split_head sep t)
  end.

(** [s.split(c)] for a one-character separator. *)
Fixpoint split (c : ascii) (s : string) : list string :=
  match s with
  | EmptyString => [EmptyString]
  | String a t =>
      if Ascii.eqb a c then EmptyString :: split c t
      else match split c t with
           | h :: r => String a h :: r
           | [] => [String a EmptyString]
           end
  end.

(** [s.replace(' ', '')] *)
Fixpoint remove_spaces (s : string) : string :=
  match s with
  | EmptyString => EmptyString
  | String c t => if Ascii.eqb c " " then remove_spaces t
                  else String c (remove_spaces t)
  end.

(** [str.title]: a letter that follows a letter is lowered, any other
    letter is raised. *)
Fixpoint title_from (after_letter : bool) (s : string) : string :=
  match s with
  | EmptyString => EmptyString
  | String c t =>
      String (if after_letter then lower_char c else upper_char c)
             (title_from (is_alpha c) t)
  end.
Definition title : string -> string := title_from false.

(** [int(s)] on a run of ASCII digits. *)
Definition digit_val (c : ascii) : N := N.of_nat (code c - 48).

Fixpoint int_of_digits_from (acc : N) (s : string) : N :=
  match s with
  | EmptyString => acc
  | String c t => int_of_digits_from (acc * 10 + digit_val c) t
  end.
Definition int_of_digits : string -> N := int_of_digits_from 0.

End PyStr.

(* ================================================================== *)
(** ** The regular expressions of the parser *)
(* ================================================================== *)

Module Re.
Import PyStr.

(** A literal matched without regard to case at the head of [s];
    the text after it. *)
Fixpoint match_literal (lit s : string) : option string :=
  match lit, s with
  | EmptyString, _ => Some s
  | String a lit', String b s' =>
      if Ascii.eqb (lower_char a) (lower_char b)
      then match_literal lit' s' else None
  | String _ _, EmptyString => None
  end.

(** [key\s*=\s*(cls+)] anchored at the head of [s].  Both [\s*] are
    greedy; neither ["="] nor a character of the group is blank, so
    giving blanks back never turns a failure into a match. *)
Definition match_attr_here (key : string) (cls : ascii -> bool)
           (s : string) : option string :=
  match match_literal key s with
  | None => None
  | Some r =>
      match drop_while is_space r with
      | String "=" r' =>
          let v := take_while cls (drop_while is_space r') in
          if is_empty v then None else Some v
      | _ => None
      end
  end.

(** [re.search(key\s*=\s*(cls+), s, re.IGNORECASE).group(1)]:
    the leftmost match. *)
Fixpoint search_attr (key : string) (cls : ascii -> bool)
         (s : string) : option string :=
  match match_attr_here key cls s with
  | Some v => Some v
  | None =>
      match s with
      | EmptyString => None
      | String _ t => search_attr key cls t
      end
  end.

(** The class [[^\s,]]. *)
Definition not_space_comma (c : ascii) : bool :=
  negb (is_space c) && negb (Ascii.eqb c ",").

(** [re.search(r'(\d+)', s).group(1)]: the first run of digits. *)
Definition search_digits (s : string) : option string :=
  let v := take_while is_digit (drop_while (fun c => negb (is_digit c)) s) in
  if is_empty v then None else Some v.

End Re.

(* ================================================================== *)
(** ** Python's [float(str)] *)
(* ================================================================== *)

(** A float is held as the number its literal denotes: sign, and a
    decimal [mantissa * 10 ^ exponent] with no trailing zero in the
    mantissa.  Rounding to binary64 is outside the model. *)
Inductive pyfloat : Type :=
| FNan
| FInf (negative : bool)
| FDec (negative : bool) (mantissa : N) (exponent : Z).

Module PyFloat.
Import PyStr.

(** Underscores may only stand between two digits; they are removed
    before the number is read. *)
Fixpoint strip_underscores (prev : option ascii) (s : string)
  : option string :=
  match s with
  | EmptyString =>
      match prev with
      | Some "_"%char => None
      | _ => Some EmptyString
      end
  | String c t =>
      if Ascii.eqb c "_" then
        match prev with
        | Some p => if is_digit p then strip_underscores (Some c) t
                    else None
        | None => None
        end
      else
        match prev with
        | Some "_"%char =>
            if is_digit c
            then option_map (String c) (strip_underscores (Some c) t)
            else None
        | _ => option_map (String c) (strip_underscores (Some c) t)
        end
  end.

Definition split_sign (s : string) : bool * string :=
  match s with
  | String "-" t => (true, t)
  | String "+" t => (false, t)
  | _ => (false, s)
  end.

Fixpoint normalise (fuel : nat) (m : N) (e : Z) : N * Z :=
  match fuel with
  | O => (m, e)
  | S fuel' =>
      if N.eqb m 0 then (0%N, 0%Z)
      else if N.eqb (N.modulo m 10) 0
           then normalise fuel' (N.div m 10) (e + 1)%Z
           else (m, e)
  end.

(** [[eE][+-]?\d+] up to the end of the text, or nothing at all. *)
Definition parse_exponent (s : string) : option Z :=
  match s with
  | EmptyString => Some 0%Z
  | String c t =>
      if Ascii.eqb (lower_char c) "e" then
        let (neg, ds) := split_sign t in
        if is_empty ds then None
        else if is_empty (drop_while is_digit ds) then
               let v := Z.of_N (int_of_digits ds) in
               Some (if neg then (- v)%Z else v)
             else None
      else None
  end.

(** Digits with an optional point, at least one digit on one side of
    it, followed by an optional exponent. *)
Definition parse_decimal (neg : bool) (s : string) : option pyfloat :=
  let ip := take_while is_digit s in
  let r1 := drop_while is_digit s in
  let (fp, r2) :=
    match r1 with
    | String "." t => (take_while is_digit t, drop_while is_digit t)
    | _ => (EmptyString, r1)
    end in
  if is_empty ip && is_empty fp then None
  else
    match parse_exponent r2 with
    | None => None
    | Some e =>
        let digits := ip ++ fp in
        let (m, e') :=
          normalise (S (String.length digits)) (int_of_digits digits)
                    (e - Z.of_nat (String.length fp))%Z in
        Some (FDec neg m e')
    end.

Definition parse_plain (s : string) : option pyfloat :=
  let (neg, body) := split_sign s in
  let low := lower body in
  if String.eqb low "inf" || String.eqb low "infinity" then Some (FInf neg)
  else if String.eqb low "nan" then Some FNan
  else parse_decimal neg body.

(** [float(s)] for a text without blanks at either end; [None] is
    [ValueError]. *)
Definition float (s : string) : option pyfloat :=
  match strip_underscores None s with
  | None => None
  | Some s' => parse_plain s'
  end.

End PyFloat.

(* ================================================================== *)
(** ** Values and dictionaries *)
(* ================================================================== *)

(** The Python values the extractor stores: an [int] (Depvar, the
    number of user constants), a [float], a [str], or a [list]. *)
#[local] Unset Elimination Schemes.
Inductive pyval : Type :=
| PInt (z : Z)
| PFloat (f : pyfloat)
| PStr (s : string)
| PList (items : list pyval).
#[local] Set Elimination Schemes.

Module Dict.

Definition dict (V : Type) : Type := list (string * V).

(** [d[k]]; [None] is [KeyError]. *)
Fixpoint get {V : Type} (k : string) (d : dict V) : option V :=
  match d with
  | [] => None
  | (k', v) :: r => if String.eqb k' k then Some v else get k r
  end.

(** [d[k] = v] *)
Fixpoint set {V : Type} (k : string) (v : V) (d : dict V) : dict V :=
  match d with
  | [] => [(k, v)]
  | (k', v') :: r =>
      if String.eqb k' k then (k, v) :: r else (k', v') :: set k v r
  end.

Definition keys {V : Type} (d : dict V) : list string := map fst d.

End Dict.

Notation "x <- c ;; k" :=
  (match c with Some x => k | None => None end)
    (at level 61, c at next level, right associativity).

(* ================================================================== *)
(** ** [extract_material_properties] *)
(* ================================================================== *)

Definition material := Dict.dict pyval.
Definition material_set := Dict.dict material.

Record state : Type := mkState {
  materials : material_set;
  current_material : option string;
  current_property : option string;
  reading_data : bool
}.

Definition init : state := mkState [] None None false.

(** Truth value of a name that is [None] or a [str]. *)
Definition truthy (o : option string) : bool :=
  match o with
  | Some s => negb (PyStr.is_empty s)
  | None => false
  end.

(** [materials[m][key] = v] *)
Definition assign (m key : string) (v : pyval) (ms : material_set)
  : option material_set :=
  props <- Dict.get m ms ;;
  Some (Dict.set m (Dict.set key v props) ms).

(** [materials[m][p].append(row)] *)
Definition append_row (m p : string) (row : pyval) (ms : material_set)
  : option material_set :=
  props <- Dict.get m ms ;;
  v <- Dict.get p props ;;
  match v with
  | PList rows => Some (Dict.set m (Dict.set p (PList (rows ++ [row])) props) ms)
  | _ => None
  end.

(** [materials[current_material][key] = v] *)
Definition assign_current (key : string) (v : pyval) (st : state)
  : option state :=
  m <- current_material st ;;
  ms <- assign m key v (materials st) ;;
  Some (mkState ms (current_material st) (current_property st)
                (reading_data st)).

(** The three statements that open every data-bearing property:
    [current_property = key], [materials[current_material][key] = []],
    [reading_data = True]. *)
Definition start_property (key : string) (st : state) : option state :=
  m <- current_material st ;;
  ms <- assign m key (PList []) (materials st) ;;
  Some (mkState ms (current_material st) (Some key) true).

(** An optional attribute found on the keyword line. *)
Definition assign_found (key : string) (found : option pyval) (st : state)
  : option state :=
  match found with
  | Some v => assign_current key v st
  | None => Some st
  end.

Definition attr (key line : string) : option pyval :=
  option_map PStr (Re.search_attr key Re.not_space_comma line).

Definition int_attr (key line : string) : option pyval :=
  option_map (fun d => PInt (Z.of_N (PyStr.int_of_digits d)))
             (Re.search_attr key PyStr.is_digit line).

Definition first_int (line : string) : option pyval :=
  option_map (fun d => PInt (Z.of_N (PyStr.int_of_digits d)))
             (Re.search_digits line).

Definition models : list string :=
  ["mooney-rivlin"; "neo hooke"; "ogden"; "polynomial"; "yeoh"].

(** The first model whose name, blanks removed, occurs in the lowered
    line, blanks removed; title-cased. *)
Definition hyperelastic_model (line : string) : option pyval :=
  option_map (fun model => PStr (PyStr.title model))
    (find (fun model =>
             PyStr.contains (PyStr.remove_spaces model)
                            (PyStr.remove_spaces (PyStr.lower line)))
          models).

Definition non_material_keywords : list string :=
  ["*STEP"; "*PART"; "*ASSEMBLY"; "*ELEMENT"; "*NODE";
   "*SECTION"; "*SOLID SECTION"; "*SHELL SECTION";
   "*BEAM SECTION"; "*BOUNDARY"; "*ELSET"; "*NSET"].

(** STEP 3: a keyword line inside a material. *)
Definition process_keyword (st0 : state) (line : string) : option state :=
  let st := mkState (materials st0) (current_material st0)
                    (current_property st0) false in
  let line_upper := PyStr.upper line in
  let starts := PyStr.startswith line_upper in
  if starts "*ELASTIC" then
    st1 <- start_property "Elastic" st ;;
    assign_found "Elastic_Type" (attr "type" line) st1
  else if starts "*PLASTIC" then
    st1 <- start_property "Plastic" st ;;
    assign_found "Plastic_Hardening" (attr "hardening" line) st1
  else if starts "*DENSITY" then start_property "Density" st
  else if starts "*CONDUCTIVITY" then start_property "Conductivity" st
  else if starts "*SPECIFIC HEAT" then start_property "Specific_Heat" st
  else if starts "*EXPANSION" then
    st1 <- start_property "Expansion" st ;;
    assign_found "Expansion_Type" (attr "type" line) st1
  else if starts "*DAMPING" then start_property "Damping" st
  else if starts "*HYPERELASTIC" then
    st1 <- start_property "Hyperelastic" st ;;
    assign_found "Hyperelastic_Model" (hyperelastic_model line) st1
  else if starts "*VISCOELASTIC" then start_property "Viscoelastic" st
  else if starts "*USER MATERIAL" then
    st1 <- start_property "User_Material" st ;;
    assign_found "User_Material_Constants" (int_attr "constants" line) st1
  else if starts "*DEPVAR" then
    assign_found "Depvar" (first_int line) st
  else if existsb starts non_material_keywords then
    Some (mkState (materials st) None None false)
  else Some st.

(** [[v.strip() for v in line.split(',') if v.strip()]] *)
Definition data_values (line : string) : list string :=
  map PyStr.strip
      (filter (fun v => negb (PyStr.is_empty (PyStr.strip v)))
              (PyStr.split "," line)).

(** [[float(v) for v in values]]; the first [ValueError] ends it. *)
Fixpoint floats_of (values : list string) : option (list pyfloat) :=
  match values with
  | [] => Some []
  | v :: r =>
      f <- PyFloat.float v ;;
      fs <- floats_of r ;;
      Some (f :: fs)
  end.

(** The [try]/[except ValueError] of STEP 4: the row that is stored. *)
Definition data_row (values : list string) : pyval :=
  match floats_of values with
  | Some numeric_values => PList (map PFloat numeric_values)
  | None => PList (map PStr values)
  end.

(** STEP 4: a data line of the active property. *)
Definition process_data (st : state) (line : string) : option state :=
  let values := data_values line in
  match values with
  | [] => Some st
  | _ :: _ =>
      m <- current_material st ;;
      p <- current_property st ;;
      ms <- append_row m p (data_row values) (materials st) ;;
      Some (mkState ms (current_material st) (current_property st)
                    (reading_data st))
  end.

(** STEPS 2 to 4 on a cleaned line. *)
Definition process (st : state) (line : string) : option state :=
  if PyStr.startswith (PyStr.upper line) "*MATERIAL" then
    match Re.search_attr "name" Re.not_space_comma line with
    | Some name =>
        Some (mkState (Dict.set name [] (materials st)) (Some name) None false)
    | None => Some st
    end
  else if truthy (current_material st) && PyStr.startswith line "*" then
    process_keyword st line
  else if truthy (current_material st) && reading_data st
          && truthy (current_property st)
          && negb (PyStr.startswith line "*") then
    process_data st line
  else Some st.

(** STEP 1: blank lines, comment lines and inline comments.  [None]
    is a skipped line. *)
Definition clean (raw : string) : option string :=
  let line := PyStr.strip raw in
  if PyStr.is_empty line then None
  else if PyStr.startswith line "**" then None
  else if PyStr.contains "**" line then
    let line' := PyStr.strip (PyStr.split_head "**" line) in
    if PyStr.is_empty line' then None else Some line'
  else Some line.

(** One turn of the [while] loop. *)
Definition step (st : state) (raw : string) : option state :=
  match clean raw with
  | None => Some st
  | Some line => process st line
  end.

Fixpoint run (st : state) (lines : list string) : option state :=
  match lines with
  | [] => Some st
  | raw :: rest => st' <- step st raw ;; run st' rest
  end.

(** The function on the lines that [readlines] gives. *)
Definition extract_material_properties (lines : list string)
  : option material_set :=
  option_map materials (run init lines).

(* ================================================================== *)
(** ** [save_to_csv] *)
(* ================================================================== *)

Module Csv.

(** What a record holds under a column: a text, a row index, the
    display text [str(v)] of a value (its rendering is left to
    Python), or a value itself. *)
Inductive cell : Type :=
| CText (s : string)
| CIndex (n : nat)
| CStrOf (v : pyval)
| CVal (v : pyval).

Definition record := Dict.dict cell.

Definition decimal (n : nat) : string :=
  NilEmpty.string_of_uint (Nat.to_uint n).

(** [f'Value_{i}'] *)
Definition value_name (i : nat) : string := "Value_" ++ decimal i.

(** [for i, val in enumerate(values): row[f'Value_{i+1}'] = val],
    entered at index [i]. *)
Fixpoint add_values (i : nat) (values : list pyval) (row : record)
  : record :=
  match values with
  | [] => row
  | val :: rest =>
      add_values (S i) rest (Dict.set (value_name (S i)) (CVal val) row)
  end.

Definition base_record (mat_name prop_name : string) (idx : nat)
           (values : pyval) : record :=
  [("Material", CText mat_name); ("Property", CText prop_name);
   ("Row_Index", CIndex idx); ("Values", CStrOf values)].

(** The record of one element of a list-valued property. *)
Definition list_record (mat_name prop_name : string) (idx : nat)
           (values : pyval) : record :=
  let row := base_record mat_name prop_name idx values in
  match values with
  | PList items => add_values 0 items row
  | _ => row
  end.

(** [for idx, values in enumerate(prop_value)], entered at [idx]. *)
Fixpoint list_records (mat_name prop_name : string) (idx : nat)
         (prop_value : list pyval) : list record :=
  match prop_value with
  | [] => []
  | values :: rest =>
      list_record mat_name prop_name idx values
        :: list_records mat_name prop_name (S idx) rest
  end.

Definition property_records (mat_name prop_name : string)
           (prop_value : pyval) : list record :=
  match prop_value with
  | PList rows => list_records mat_name prop_name 0 rows
  | _ => [base_record mat_name prop_name 0 prop_value]
  end.

Definition material_records (mat_name : string) (properties : material)
  : list record :=
  flat_map (fun kv => property_records mat_name (fst kv) (snd kv))
           properties.

(** The list [rows] built by the two outer loops. *)
Definition flatten (ms : material_set) : list record :=
  flat_map (fun kv => material_records (fst kv) (snd kv)) ms.

Definition value_cols (row : record) : list string :=
  filter (fun k => PyStr.startswith k "Value_") (Dict.keys row).

Definition max_values (rows : list record) : nat :=
  fold_left (fun mx row =>
               if Nat.ltb mx (List.length (value_cols row))
               then List.length (value_cols row) else mx)
            rows 0.

Definition fieldnames (rows : list record) : list string :=
  ["Material"; "Property"; "Row_Index"; "Values"]
    ++ map value_name (seq 1 (max_values rows)).

(** [DictWriter._dict_to_list]: a key outside the field names raises
    [ValueError]; a field name the record lacks gives the blank
    [restval], here [None]. *)
Definition dict_to_list (fields : list string) (row : record)
  : option (list (option cell)) :=
  if forallb (fun k => existsb (String.eqb k) fields) (Dict.keys row)
  then Some (map (fun k => Dict.get k row) fields)
  else None.

Fixpoint writerows (fields : list string) (rows : list record)
  : option (list (list (option cell))) :=
  match rows with
  | [] => Some []
  | row :: rest =>
      l <- dict_to_list fields row ;;
      ls <- writerows fields rest ;;
      Some (l :: ls)
  end.

(** What reaches the file: nothing when there is no record, else the
    header line and one line per record. *)
Inductive output : Type :=
| NoData
| Written (header : list string) (lines : list (list (option cell))).

Definition save_to_csv (ms : material_set) : option output :=
  let rows := flatten ms in
  match rows with
  | [] => Some NoData
  | _ :: _ =>
      let fields := fieldnames rows in
      lines <- writerows fields rows ;;
      Some (Written fields lines)
  end.

End Csv.

(* ================================================================== *)
(** ** The flat view, in the words of the specification *)
(* ================================================================== *)

(** Section 4.4 of the specification: materials in insertion order,
    then properties in insertion order; one record per row of a
    list-valued property, in row order; one record with row index 0 and
    no positional field for a scalar property.  [save_to_csv] is
    compared with this view below. *)
Module FlatView.
Import Csv.

Record flat_record : Type := mkFlat {
  fr_material : string;
  fr_property : string;
  fr_index : nat;
  fr_shown : pyval;
  fr_fields : list pyval
}.

(** The positional fields of a row: its elements when it is a list. *)
Definition fields_of (row : pyval) : list pyval :=
  match row with
  | PList items => items
  | _ => []
  end.

Definition property_view (mat prop : string) (value : pyval)
  : list flat_record :=
  match value with
  | PList rows =>
      map (fun ir => mkFlat mat prop (fst ir) (snd ir) (fields_of (snd ir)))
          (combine (seq 0 (List.length rows)) rows)
  | scalar => [mkFlat mat prop 0 scalar []]
  end.

Definition material_view (mat : string) (props : material)
  : list flat_record :=
  flat_map (fun kv => property_view mat (fst kv) (snd kv)) props.

Definition flat_view (ms : material_set) : list flat_record :=
  flat_map (fun kv => material_view (fst kv) (snd kv)) ms.

Definition width (r : flat_record) : nat := List.length (fr_fields r).

(** The maximum row width across the whole export. *)
Definition max_width (rs : list flat_record) : nat := list_max (map width rs).

Definition header (n : nat) : list string :=
  ["Material"; "Property"; "Row_Index"; "Values"] ++ map value_name (seq 1 n).

(** The line of a record under a header of [n] positional columns:
    its fields, then blanks. *)
Definition render (n : nat) (r : flat_record) : list (option cell) :=
  [Some (CText (fr_material r)); Some (CText (fr_property r));
   Some (CIndex (fr_index r)); Some (CStrOf (fr_shown r))]
    ++ map (fun v => Some (CVal v)) (fr_fields r)
    ++ repeat None (n - width r).

(** The record dictionary that [save_to_csv] builds for a record. *)
Definition row_of_flat (r : flat_record) : record :=
  add_values 0 (fr_fields r)
             (base_record (fr_material r) (fr_property r) (fr_index r)
                          (fr_shown r)).

(** The number of records a property entry stands for: its row count
    when list-valued, else 1. *)
Definition entry_count (kv : string * pyval) : nat :=
  match snd kv with
  | PList rows => List.length rows
  | _ => 1
  end.

(** The record is one of material [name]. *)
Definition of_material (name : string) (row : record) : bool :=
  match Dict.get "Material" row with
  | Some (CText n) => String.eqb n name
  | _ => false
  end.

End FlatView.

(* ================================================================== *)
(** ** The parser as a state machine *)
(* ================================================================== *)

(** The keyword chain of STEP 3 read as a classifier, and the loop body
    as a total transition function.  On the states the parser can
    reach no dictionary access fails, and [process] is [next]. *)
Module Machine.
Import PyStr Dict.

Inductive keyword : Type :=
| DataProperty (key : string) (attribute : option (string * pyval))
| DepvarLine (value : option pyval)
| SectionBoundary
| OtherKeyword.

Definition found_as (key : string) (found : option pyval)
  : option (string * pyval) :=
  option_map (pair key) found.

Definition classify (line : string) : keyword :=
  let starts := startswith (upper line) in
  if starts "*ELASTIC" then
    DataProperty "Elastic" (found_as "Elastic_Type" (attr "type" line))
  else if starts "*PLASTIC" then
    DataProperty "Plastic"
                 (found_as "Plastic_Hardening" (attr "hardening" line))
  else if starts "*DENSITY" then DataProperty "Density" None
  else if starts "*CONDUCTIVITY" then DataProperty "Conductivity" None
  else if starts "*SPECIFIC HEAT" then DataProperty "Specific_Heat" None
  else if starts "*EXPANSION" then
    DataProperty "Expansion" (found_as "Expansion_Type" (attr "type" line))
  else if starts "*DAMPING" then DataProperty "Damping" None
  else if starts "*HYPERELASTIC" then
    DataProperty "Hyperelastic"
                 (found_as "Hyperelastic_Model" (hyperelastic_model line))
  else if starts "*VISCOELASTIC" then DataProperty "Viscoelastic" None
  else if starts "*USER MATERIAL" then
    DataProperty "User_Material"
                 (found_as "User_Material_Constants"
                           (int_attr "constants" line))
  else if starts "*DEPVAR" then DepvarLine (first_int line)
  else if existsb starts non_material_keywords then SectionBoundary
  else OtherKeyword.

Definition property_keys : list string :=
  ["Elastic"; "Plastic"; "Density"; "Conductivity"; "Specific_Heat";
   "Expansion"; "Damping"; "Hyperelastic"; "Viscoelastic"; "User_Material"].

Definition attribute_keys : list string :=
  ["Elastic_Type"; "Plastic_Hardening"; "Expansion_Type";
   "Hyperelastic_Model"; "User_Material_Constants"].

(** The name a [*MATERIAL] line declares, if it declares one. *)
Definition material_start (line : string) : option string :=
  if startswith (upper line) "*MATERIAL"
  then Re.search_attr "name" Re.not_space_comma line
  else None.

(** A [*MATERIAL] line on which no [name=] is found. *)
Definition nameless_material (line : string) : bool :=
  startswith (upper line) "*MATERIAL" &&
  match Re.search_attr "name" Re.not_space_comma line with
  | Some _ => false
  | None => true
  end.

(** The property a keyword line opens, if any. *)
Definition opens (line : string) : option string :=
  if startswith (upper line) "*MATERIAL" then None
  else match classify line with
       | DataProperty key _ => Some key
       | _ => None
       end.

Definition update (m : string) (f : material -> material)
           (ms : material_set) : material_set :=
  match get m ms with
  | Some props => set m (f props) ms
  | None => ms
  end.

Definition put_found (a : option (string * pyval)) (props : material)
  : material :=
  match a with
  | Some (k, v) => set k v props
  | None => props
  end.

Definition push_row (p : string) (row : pyval) (props : material)
  : material :=
  match get p props with
  | Some (PList rows) => set p (PList (rows ++ [row])) props
  | _ => props
  end.

Definition apply_keyword (st : state) (kw : keyword) : state :=
  match current_material st with
  | None => st
  | Some m =>
      match kw with
      | DataProperty key a =>
          mkState (update m (fun props =>
                               put_found a (set key (PList []) props))
                          (materials st))
                  (Some m) (Some key) true
      | DepvarLine (Some v) =>
          mkState (update m (set "Depvar" v) (materials st))
                  (Some m) (current_property st) false
      | DepvarLine None =>
          mkState (materials st) (Some m) (current_property st) false
      | SectionBoundary => mkState (materials st) None None false
      | OtherKeyword =>
          mkState (materials st) (Some m) (current_property st) false
      end
  end.

Definition apply_data (st : state) (line : string) : state :=
  match data_values line, current_material st, current_property st with
  | (_ :: _) as values, Some m, Some p =>
      mkState (update m (push_row p (data_row values)) (materials st))
              (Some m) (Some p) (reading_data st)
  | _, _, _ => st
  end.

Definition next (st : state) (line : string) : state :=
  if startswith (upper line) "*MATERIAL" then
    match Re.search_attr "name" Re.not_space_comma line with
    | Some name => mkState (set name [] (materials st)) (Some name) None false
    | None => st
    end
  else if truthy (current_material st) && startswith line "*" then
    apply_keyword st (classify line)
  else if truthy (current_material st) && reading_data st
          && truthy (current_property st)
          && negb (startswith line "*") then
    apply_data st line
  else st.

Definition next_raw (st : state) (raw : string) : state :=
  match clean raw with
  | None => st
  | Some line => next st line
  end.

Definition run_next (st : state) (lines : list string) : state :=
  fold_left next_raw lines st.

(** What holds of every state the loop reaches. *)
Record Inv (st : state) : Prop := mkInv {
  inv_material : forall m, current_material st = Some m ->
    is_empty m = false /\ exists props, get m (materials st) = Some props;
  inv_property : forall p, current_property st = Some p ->
    In p property_keys;
  inv_reading : reading_data st = true ->
    exists m p props rows,
      current_material st = Some m /\ current_property st = Some p /\
      get m (materials st) = Some props /\
      get p props = Some (PList rows)
}.


(** A line that is skipped, or that declares no material. *)
Definition declares_nothing (raw : string) : Prop :=
  forall line, clean raw = Some line -> material_start line = None.

(** A line that is skipped, or that is no keyword line. *)
Definition no_keyword (raw : string) : Prop :=
  forall line, clean raw = Some line -> startswith line "*" = false.







End Machine.

(* ================================================================== *)
(** ** The scenarios of the specification *)
(* ================================================================== *)

Module Scenarios.

Definition LF : string := String (ascii_of_nat 10) EmptyString.

(** The lines of a file as [readlines] returns them, each with its
    line end. *)
Definition readlines (text : list string) : list string :=
  map (fun l => l ++ LF) text.

Definition steel_deck : list string :=
  ["*MATERIAL, name=Steel";
   "*ELASTIC, TYPE=ISOTROPIC";
   "210000.0, 0.3";
   "*DENSITY";
   "7850.0";
   "*STEP"].

(** [{"Steel": {"Elastic": [[210000.0, 0.3]], "Elastic_Type":
    "ISOTROPIC", "Density": [[7850.0]]}}] *)
Definition steel_result : material_set :=
  [("Steel",
    [("Elastic", PList [PList [PFloat (FDec false 21 4);
                               PFloat (FDec false 3 (-1))]]);
     ("Elastic_Type", PStr "ISOTROPIC");
     ("Density", PList [PList [PFloat (FDec false 785 1)]])])].

End Scenarios.

(* ================================================================== *)
(** ** [print_material_properties] *)
(* ================================================================== *)

Module Report.

(** What one call of [print] writes: a text, or the two blanks of
    [f"  {v}"] followed by the display text [str(v)] of a value (its
    rendering is left to Python). *)
Inductive printed : Type :=
| Line (text : string)
| Shown (v : pyval).

Definition newline : string := String (ascii_of_nat 10) EmptyString.

Fixpoint times (n : nat) (c : ascii) : string :=
  match n with
  | O => EmptyString
  | S n' => String c (times n' c)
  end.

(** ['='*60] *)
Definition rule : string := times 60 "=".

Definition print_property (kv : string * pyval) : list printed :=
  Line (newline ++ fst kv ++ ":")
    :: match snd kv with
       | PList rows => map Shown rows
       | scalar => [Shown scalar]
       end.

Definition print_material (kv : string * material) : list printed :=
  [Line (newline ++ rule); Line ("Material: " ++ fst kv); Line rule]
    ++ match snd kv with
       | [] => [Line "  (No properties found)"]
       | _ :: _ => flat_map print_property (snd kv)
       end.

Definition print_material_properties (ms : material_set) : list printed :=
  flat_map print_material ms.

(** The values a report shows, in the order it shows them. *)
Definition shown_values (out : list printed) : list pyval :=
  flat_map (fun x => match x with Shown v => [v] | Line _ => [] end) out.

End Report.

(* ================================================================== *)
(** ** The shape of a parse result *)
(* ================================================================== *)

Module Shape.
Import PyStr.







(** Every character of the text satisfies [p]. *)
Fixpoint all_chars (p : ascii -> bool) (s : string) : bool :=
  match s with
  | EmptyString => true
  | String c t => p c && all_chars p t
  end.

End Shape.

(* ================================================================== *)
(** ** The materials a file declares *)
(* ================================================================== *)

Module Declared.

(** The material a raw line declares, if it declares one. *)
Definition declared_name (raw : string) : option string :=
  line <- clean raw ;; Machine.material_start line.

Definition declared (lines : list string) : list string :=
  flat_map (fun raw => match declared_name raw with
                       | Some name => [name]
                       | None => []
                       end) lines.

Definition remember (seen : list string) (name : string) : list string :=
  if existsb (String.eqb name) seen then seen else (seen ++ [name])%list.


End Declared.

(* ================================================================== *)
(** ** Dictionaries: lookup after assignment *)
(* ================================================================== *)

Module DictFacts.
Import Dict.

Section WithValues.
Context {V : Type}.
Implicit Types (d : dict V) (k : string) (v : V).

Lemma get_set_same k v d : get k (set k v d) = Some v.
Proof.
  induction d as [|[k' v'] r IH]; simpl.
  - now rewrite String.eqb_refl.
  - destruct (String.eqb k' k) eqn:E; simpl.
    + now rewrite String.eqb_refl.
    + now rewrite E.
Qed.

Lemma get_set_other k k' v d : k <> k' -> get k' (set k v d) = get k' d.
Proof.
  intros Hne. induction d as [|[k0 v0] r IH]; simpl.
  - destruct (String.eqb k k') eqn:E; [|reflexivity].
    apply String.eqb_eq in E. contradiction.
  - destruct (String.eqb k0 k) eqn:E; simpl.
    + apply String.eqb_eq in E. subst k0.
      destruct (String.eqb k k') eqn:E'; [|reflexivity].
      apply String.eqb_eq in E'. contradiction.
    + destruct (String.eqb k0 k'); [reflexivity|exact IH].
Qed.

Lemma get_set k k' v d :
  get k' (set k v d) = if String.eqb k k' then Some v else get k' d.
Proof.
  destruct (String.eqb k k') eqn:E.
  - apply String.eqb_eq in E. subst. apply get_set_same.
  - apply String.eqb_neq in E. now apply get_set_other.
Qed.

Lemma set_set k v1 v2 d : set k v2 (set k v1 d) = set k v2 d.
Proof.
  induction d as [|[k' v'] r IH]; simpl.
  - now rewrite String.eqb_refl.
  - destruct (String.eqb k' k) eqn:E; simpl.
    + now rewrite String.eqb_refl.
    + now rewrite E, IH.
Qed.


Lemma keys_set_fresh k v d :
  get k d = None -> keys (set k v d) = (keys d ++ [k])%list.
Proof.
  unfold keys. induction d as [|[k' v'] r IH]; simpl; [reflexivity|].
  destruct (String.eqb k' k) eqn:E; simpl; [discriminate|].
  intros H. now rewrite IH.
Qed.

End WithValues.

End DictFacts.

(* ================================================================== *)
(** ** Text: prefixes, case, matched groups *)
(* ================================================================== *)

Module StrFacts.
Import PyStr.

(** Two prefixes of one text are comparable. *)
Lemma prefixes_comparable a b s :
  prefixes a s = true -> prefixes b s = true ->
  prefixes a b = true \/ prefixes b a = true.
Proof.
  revert b s. induction a as [|x a IH]; intros b s Ha Hb.
  - left. reflexivity.
  - destruct b as [|y b]; [right; reflexivity|].
    destruct s as [|z s]; [discriminate|].
    simpl in Ha, Hb.
    apply andb_prop in Ha as [Hx Ha]. apply andb_prop in Hb as [Hy Hb].
    apply Ascii.eqb_eq in Hx, Hy. subst x y.
    simpl. rewrite Ascii.eqb_refl. simpl.
    eapply IH; eassumption.
Qed.

Lemma startswith_exclusive a b s :
  prefixes a b = false -> prefixes b a = false ->
  startswith s a = true -> startswith s b = false.
Proof.
  unfold startswith. intros Hab Hba Ha.
  destruct (prefixes b s) eqn:Hb; [|reflexivity].
  destruct (prefixes_comparable a b s Ha Hb) as [H|H]; congruence.
Qed.

Lemma prefixes_trans a b s :
  prefixes a b = true -> prefixes b s = true -> prefixes a s = true.
Proof.
  revert b s. induction a as [|x a IH]; intros b s Hab Hbs.
  - reflexivity.
  - destruct b as [|y b]; [discriminate|].
    destruct s as [|z s]; [discriminate|].
    simpl in *.
    apply andb_prop in Hab as [Hx Hab]. apply andb_prop in Hbs as [Hy Hbs].
    rewrite Ascii.eqb_eq in Hx, Hy. subst x y.
    rewrite Ascii.eqb_refl. simpl.
    eapply IH; eassumption.
Qed.

Lemma upper_char_star c : upper_char c = "*"%char -> c = "*"%char.
Proof.
  unfold upper_char. destruct (is_lower c) eqn:E; [|easy].
  intros H. exfalso. revert E H.
  destruct c as [[] [] [] [] [] [] [] []]; vm_compute; congruence.
Qed.

(** Raising the case neither makes nor unmakes a leading star. *)
Lemma upper_star s : startswith (upper s) "*" = startswith s "*".
Proof.
  destruct s as [|c s]; [reflexivity|].
  unfold startswith. cbn [upper map_chars prefixes].
  rewrite !andb_true_r.
  destruct (Ascii.eqb "*" (upper_char c)) eqn:E;
    destruct (Ascii.eqb "*" c) eqn:F; try reflexivity.
  - apply Ascii.eqb_eq in E. symmetry in E. apply upper_char_star in E.
    subst c. discriminate.
  - apply Ascii.eqb_eq in F. subst c. discriminate.
Qed.

Lemma starred_keyword kw s :
  prefixes "*" kw = true -> startswith (upper s) kw = true ->
  startswith s "*" = true.
Proof.
  intros Hk Hs. rewrite <- upper_star. unfold startswith in *.
  eapply prefixes_trans; eassumption.
Qed.

Lemma unstarred_keyword kw s :
  prefixes "*" kw = true -> startswith s "*" = false ->
  startswith (upper s) kw = false.
Proof.
  intros Hk Hs. destruct (startswith (upper s) kw) eqn:E; [|reflexivity].
  rewrite (starred_keyword kw s Hk E) in Hs. discriminate.
Qed.

Lemma match_attr_here_nonempty key cls s v :
  Re.match_attr_here key cls s = Some v -> is_empty v = false.
Proof.
  unfold Re.match_attr_here.
  destruct (Re.match_literal key s) as [r|]; [|discriminate].
  destruct (drop_while is_space r) as [|a r']; [discriminate|].
  destruct a as [[] [] [] [] [] [] [] []]; try discriminate.
  destruct (is_empty _) eqn:E; [discriminate|].
  intros [= <-]. exact E.
Qed.

(** The group of a match holds at least one character. *)
Lemma search_attr_nonempty key cls s v :
  Re.search_attr key cls s = Some v -> is_empty v = false.
Proof.
  induction s as [|c s IH]; simpl;
    destruct (Re.match_attr_here key cls _) as [w|] eqn:M;
    try discriminate; try exact IH;
    intros [= <-]; eapply match_attr_here_nonempty; eassumption.
Qed.

End StrFacts.

(* ================================================================== *)
(** ** The loop body is the transition function *)
(* ================================================================== *)

Module MachineFacts.
Import PyStr Dict DictFacts StrFacts Machine.


Lemma get_update m m' f ms :
  get m' (update m f ms) =
  if String.eqb m m' then option_map f (get m ms) else get m' ms.
Proof.
  unfold update. destruct (get m ms) as [props|] eqn:G.
  - rewrite get_set. destruct (String.eqb m m'); reflexivity.
  - destruct (String.eqb m m') eqn:E; [|reflexivity].
    apply String.eqb_eq in E. now subst.
Qed.

(** Every key the chain opens is one of the ten property keys, and
    every attribute it finds goes under one of the five attribute
    keys. *)
Lemma classify_keys line key a :
  classify line = DataProperty key a ->
  In key property_keys /\
  forall k v, a = Some (k, v) -> In k attribute_keys.
Proof.
  unfold classify, found_as.
  repeat match goal with
         | |- context [if ?c then _ else _] => destruct c
         end;
    intros [= <- <-]; (split; [simpl; tauto|]); intros k v; try discriminate.
  - destruct (attr "type" line); intros [= <- _]; simpl; tauto.
  - destruct (attr "hardening" line); intros [= <- _]; simpl; tauto.
  - destruct (attr "type" line); intros [= <- _]; simpl; tauto.
  - destruct (hyperelastic_model line); intros [= <- _]; simpl; tauto.
  - destruct (int_attr "constants" line); intros [= <- _]; simpl; tauto.
Qed.

Lemma process_keyword_next st line m props :
  current_material st = Some m ->
  get m (materials st) = Some props ->
  process_keyword st line = Some (apply_keyword st (classify line)).
Proof.
  intros Hm Hg.
  unfold process_keyword, classify, apply_keyword, start_property,
    assign_found, assign_current, assign, found_as, update.
  cbn [materials current_material current_property reading_data].
  rewrite Hm, Hg.
  repeat match goal with
         | |- context [if ?c then _ else _] => destruct c
         end;
    cbn [materials current_material current_property reading_data
         option_map put_found];
    try reflexivity;
    try match goal with
        | |- context [match ?o with Some _ => _ | None => _ end] =>
            destruct o
        end;
    cbn [materials current_material current_property reading_data
         option_map put_found];
    rewrite ?get_set_same, ?set_set; reflexivity.
Qed.

Lemma truthy_some o :
  truthy o = true -> exists m, o = Some m /\ is_empty m = false.
Proof.
  destruct o as [m|]; [|discriminate]. simpl. intros H. exists m.
  split; [reflexivity|]. now destruct (is_empty m).
Qed.

Lemma process_data_next st line :
  Inv st -> reading_data st = true ->
  process_data st line = Some (apply_data st line).
Proof.
  intros I Hr.
  destruct (inv_reading st I Hr) as (m & p & props & rows & Hm & Hp & Hg & Hl).
  unfold process_data, apply_data, append_row, update, push_row.
  destruct (data_values line) as [|v vs]; [reflexivity|].
  rewrite Hm, Hp, Hg, Hl. reflexivity.
Qed.

(** On a state of the loop no access fails: the body returns, and it
    returns what the transition function says. *)
Lemma process_next st line : Inv st -> process st line = Some (next st line).
Proof.
  intros I. unfold process, next.
  destruct (startswith (upper line) "*MATERIAL").
  { now destruct (Re.search_attr "name" Re.not_space_comma line). }
  destruct (truthy (current_material st) && startswith line "*") eqn:K.
  { apply andb_prop in K as [K _].
    apply truthy_some in K as (m & Hm & _).
    destruct (inv_material st I m Hm) as (_ & props & Hg).
    eapply process_keyword_next; eassumption. }
  destruct (truthy (current_material st) && reading_data st
            && truthy (current_property st)
            && negb (startswith line "*")) eqn:D; [|reflexivity].
  apply andb_prop in D as [D _]. apply andb_prop in D as [D _].
  apply andb_prop in D as [_ D]. now apply process_data_next.
Qed.

Lemma keys_disjoint k : In k property_keys -> In k attribute_keys -> False.
Proof.
  unfold property_keys, attribute_keys. simpl.
  intros H1 H2.
  repeat (destruct H1 as [<-|H1]; [
    repeat (destruct H2 as [H2|H2]; [discriminate H2|]); exact H2 |]).
  exact H1.
Qed.

Lemma get_put_found key a props v :
  In key property_keys ->
  (forall k w, a = Some (k, w) -> In k attribute_keys) ->
  get key props = Some v ->
  get key (put_found a props) = Some v.
Proof.
  intros Hk Ha Hg. destruct a as [[k w]|]; [|exact Hg]. simpl.
  rewrite get_set_other; [exact Hg|].
  intros ->. eapply keys_disjoint; [exact Hk|]. eapply Ha. reflexivity.
Qed.

Lemma apply_keyword_inv st line :
  Inv st -> Inv (apply_keyword st (classify line)).
Proof.
  intros I. unfold apply_keyword.
  destruct (current_material st) as [m|] eqn:Hm; [|exact I].
  destruct (inv_material st I m Hm) as (Hne & props & Hg).
  destruct (classify line) as [key a|[v|]| |] eqn:C.
  - destruct (classify_keys _ _ _ C) as [Hk Ha].
    constructor; cbn [materials current_material current_property reading_data].
    + intros m' [= <-]. split; [exact Hne|].
      rewrite get_update, String.eqb_refl, Hg. simpl. eauto.
    + now intros p [= <-].
    + intros _. exists m, key, (put_found a (set key (PList []) props)), [].
      rewrite get_update, String.eqb_refl, Hg. simpl.
      repeat split. apply get_put_found; auto. apply get_set_same.
  - constructor; cbn [materials current_material current_property reading_data].
    + intros m' [= <-]. split; [exact Hne|].
      rewrite get_update, String.eqb_refl, Hg. simpl. eauto.
    + apply (inv_property st I).
    + discriminate.
  - constructor; cbn [materials current_material current_property reading_data].
    + intros m' [= <-]. eauto.
    + apply (inv_property st I).
    + discriminate.
  - constructor; cbn [materials current_material current_property reading_data];
      discriminate.
  - constructor; cbn [materials current_material current_property reading_data].
    + intros m' [= <-]. eauto.
    + apply (inv_property st I).
    + discriminate.
Qed.

Lemma apply_data_inv st line : Inv st -> Inv (apply_data st line).
Proof.
  intros I. unfold apply_data.
  destruct (data_values line) as [|v vs]; [exact I|].
  destruct (current_material st) as [m|] eqn:Hm; [|exact I].
  destruct (current_property st) as [p|] eqn:Hp; [|exact I].
  destruct (inv_material st I m Hm) as (Hne & props & Hg).
  constructor; cbn [materials current_material current_property reading_data].
  - intros m' [= <-]. split; [exact Hne|].
    rewrite get_update, String.eqb_refl, Hg. simpl. eauto.
  - intros p' [= <-]. now apply (inv_property st I).
  - intros Hr.
    destruct (inv_reading st I Hr) as (m' & p' & props' & rows & Hm' & Hp' & Hg' & Hl).
    assert (m' = m) by congruence. assert (p' = p) by congruence.
    assert (props' = props) by congruence. subst.
    exists m, p, (push_row p (data_row (v :: vs)) props),
      (rows ++ [data_row (v :: vs)])%list.
    rewrite get_update, String.eqb_refl, Hg. simpl.
    repeat split. unfold push_row. rewrite Hl. apply get_set_same.
Qed.

Lemma init_inv : Inv init.
Proof. constructor; simpl; discriminate. Qed.

Lemma next_inv st line : Inv st -> Inv (next st line).
Proof.
  intros I. unfold next.
  destruct (startswith (upper line) "*MATERIAL").
  { destruct (Re.search_attr "name" Re.not_space_comma line) as [name|] eqn:S;
      [|exact I].
    constructor; cbn [materials current_material current_property reading_data];
      try discriminate.
    intros m [= <-]. split.
    - eapply search_attr_nonempty; eassumption.
    - rewrite get_set_same. eauto. }
  destruct (truthy (current_material st) && startswith line "*").
  { now apply apply_keyword_inv. }
  destruct (_ && _); [now apply apply_data_inv | exact I].
Qed.

Lemma next_raw_inv st raw : Inv st -> Inv (next_raw st raw).
Proof.
  intros I. unfold next_raw. destruct (clean raw); [now apply next_inv|exact I].
Qed.

Lemma run_next_inv lines : forall st, Inv st -> Inv (run_next st lines).
Proof.
  unfold run_next. induction lines as [|raw rest IH]; intros st I; simpl.
  - exact I.
  - apply IH. now apply next_raw_inv.
Qed.

Lemma step_next st raw : Inv st -> step st raw = Some (next_raw st raw).
Proof.
  intros I. unfold step, next_raw.
  destruct (clean raw); [now apply process_next|reflexivity].
Qed.

(** The loop ends in the state the transition function reaches. *)
Lemma run_is_run_next lines :
  forall st, Inv st -> run st lines = Some (run_next st lines).
Proof.
  induction lines as [|raw rest IH]; intros st I; simpl.
  - reflexivity.
  - rewrite (step_next st raw I). apply IH. now apply next_raw_inv.
Qed.

Lemma run_next_app st xs ys :
  run_next st (xs ++ ys) = run_next (run_next st xs) ys.
Proof. unfold run_next. apply fold_left_app. Qed.


Lemma next_unstarred st line :
  startswith line "*" = false ->
  next st line =
  if truthy (current_material st) && reading_data st
     && truthy (current_property st)
  then apply_data st line else st.
Proof.
  intros H. unfold next.
  rewrite (unstarred_keyword "*MATERIAL" line eq_refl H), H.
  now rewrite andb_false_r, andb_true_r.
Qed.

Lemma next_idle st line :
  current_material st = None -> material_start line = None ->
  next st line = st.
Proof.
  unfold next, material_start. intros Hm Hs.
  destruct (startswith (upper line) "*MATERIAL").
  - now rewrite Hs.
  - now rewrite Hm.
Qed.

Lemma run_next_idle lines : forall st,
  current_material st = None -> Forall declares_nothing lines ->
  run_next st lines = st.
Proof.
  unfold run_next.
  induction lines as [|raw rest IH]; intros st Hm Hall; simpl.
  - reflexivity.
  - inversion Hall as [|? ? Hraw Hrest]; subst.
    assert (E : next_raw st raw = st).
    { unfold next_raw. destruct (clean raw) as [line|] eqn:C; [|reflexivity].
      apply next_idle; [exact Hm|]. now apply Hraw. }
    rewrite E. now apply IH.
Qed.





Lemma run_next_not_reading lines : forall st,
  reading_data st = false -> Forall no_keyword lines ->
  run_next st lines = st.
Proof.
  unfold run_next.
  induction lines as [|raw rest IH]; intros st Hr Hall; simpl.
  - reflexivity.
  - inversion Hall as [|? ? Hraw Hrest]; subst.
    assert (E : next_raw st raw = st).
    { unfold next_raw. destruct (clean raw) as [line|] eqn:C; [|reflexivity].
      rewrite (next_unstarred st line (Hraw line C)), Hr.
      now rewrite andb_false_r. }
    rewrite E. now apply IH.
Qed.

Ltac skip_keyword H :=
  match type of H with
  | startswith ?s ?a = true =>
      match goal with
      | |- context [if startswith s ?kw then _ else _] =>
          rewrite (startswith_exclusive a kw s eq_refl eq_refl H)
      end
  end.




















Lemma not_truthy_none st :
  Inv st -> truthy (current_material st) = false ->
  current_material st = None /\ reading_data st = false.
Proof.
  intros I Ht.
  assert (Hn : current_material st = None).
  { destruct (current_material st) as [m|] eqn:Hm; [|reflexivity].
    destruct (inv_material st I m Hm) as [Hne _].
    simpl in Ht. rewrite Hne in Ht. discriminate. }
  split; [exact Hn|].
  destruct (reading_data st) eqn:Hr; [|reflexivity].
  destruct (inv_reading st I Hr) as (m & _ & _ & _ & Hm & _). congruence.
Qed.





End MachineFacts.

(* ================================================================== *)
(** ** Properties of the parser *)
(* ================================================================== *)

Module ParserProperties.
Import PyStr Dict DictFacts StrFacts Machine MachineFacts Scenarios.

(** The parser returns on every input. *)
Lemma extract_total lines :
  extract_material_properties lines = Some (materials (run_next init lines)).
Proof.
  unfold extract_material_properties.
  now rewrite (run_is_run_next lines init init_inv).
Qed.

(** C3.  The six-line Steel deck parses to
    [{"Steel": {"Elastic": [[210000.0, 0.3]], "Elastic_Type": "ISOTROPIC",
    "Density": [[7850.0]]}}]; after its [*STEP] line the material is
    closed, so whatever lines are appended to the deck, as long as
    none of them declares a material, the result stays the same: no
    later data line adds a row to any material. *)
Theorem steel_deck_closed_by_step :
  extract_material_properties (readlines steel_deck) = Some steel_result /\
  forall later,
    Forall declares_nothing later ->
    extract_material_properties (readlines steel_deck ++ later)
    = Some steel_result.
Proof.
  assert (E : run_next init (readlines steel_deck)
              = mkState steel_result None None false) by (vm_compute; reflexivity).
  split.
  - rewrite extract_total, E. reflexivity.
  - intros later Hl.
    rewrite extract_total, run_next_app, E.
    now rewrite run_next_idle.
Qed.

Lemma steel_deck_closed_by_step_witness :
  extract_material_properties
    (readlines steel_deck ++ ["1.0, 2.0"; "*ELASTIC"; "5.0"; "*MATERIAL"; "7"])
  = Some steel_result.
Proof.
  apply (proj2 steel_deck_closed_by_step).
  repeat constructor; intros line [= <-]; vm_compute; reflexivity.
Defined.

Lemma data_values_blank line :
  Forall (fun t => strip t = "") (split "," line) -> data_values line = [].
Proof.
  unfold data_values. induction (split "," line) as [|t ts IH]; intros H.
  - reflexivity.
  - inversion H as [|? ? Ht Hts]; subst. simpl. rewrite Ht. simpl. auto.
Qed.

(** C10.  A non-keyword line all of whose comma-separated tokens are
    empty once trimmed appends no row: in whatever state it is read,
    and so also while a property is reading data, the loop body
    returns the state unchanged and parsing goes on with the next
    line. *)
Theorem blank_tokens_append_nothing st raw line rest :
  clean raw = Some line ->
  startswith line "*" = false ->
  Forall (fun t => strip t = "") (split "," line) ->
  step st raw = Some st /\ run st (raw :: rest) = run st rest.
Proof.
  intros Hc Hs Hb.
  assert (E : step st raw = Some st).
  { unfold step. rewrite Hc. unfold process.
    rewrite (unstarred_keyword "*MATERIAL" line eq_refl Hs), Hs.
    rewrite andb_false_r.
    destruct (_ && _); [|reflexivity].
    unfold process_data. now rewrite (data_values_blank line Hb). }
  split; [exact E|]. simpl. now rewrite E.
Qed.

Lemma blank_tokens_append_nothing_witness :
  let st := mkState [("M", [("Elastic", PList [PList [PFloat (FDec false 1 0)]])])]
                    (Some "M") (Some "Elastic") true in
  step st " , ,, " = Some st /\
  run st [" , ,, "; "2.0"] = run st ["2.0"].
Proof.
  intros st.
  apply (blank_tokens_append_nothing st " , ,, " ", ,," ["2.0"]).
  - reflexivity.
  - reflexivity.
  - repeat constructor.
Defined.













End ParserProperties.

(* ================================================================== *)
(** ** Properties of the CSV flattening *)
(* ================================================================== *)

Module CsvProperties.
Import Dict DictFacts Csv FlatView.

Lemma decimal_inj a b : decimal a = decimal b -> a = b.
Proof.
  unfold decimal. intros H.
  apply (f_equal NilEmpty.uint_of_string) in H.
  rewrite !NilEmpty.usu in H. injection H as H.
  now apply Unsigned.to_uint_inj.
Qed.

Lemma value_name_inj a b : value_name a = value_name b -> a = b.
Proof.
  unfold value_name. simpl. intros [= H]. now apply decimal_inj.
Qed.

Lemma value_name_is_value_col j :
  PyStr.startswith (value_name j) "Value_" = true.
Proof. reflexivity. Qed.

Lemma base_has_no_value mat prop idx shown j :
  get (value_name j) (base_record mat prop idx shown) = None.
Proof. reflexivity. Qed.

(** What the loop over the values of a row leaves in the record. *)
Lemma get_add_values_other values : forall i row k,
  (forall j, i < j -> j <= i + List.length values -> k <> value_name j) ->
  get k (add_values i values row) = get k row.
Proof.
  induction values as [|v rest IH]; intros i row k Hk; simpl in *.
  - reflexivity.
  - rewrite IH.
    + apply get_set_other. intros E. apply (Hk (S i)); [lia|lia|auto].
    + intros j H1 H2. apply Hk; lia.
Qed.

Lemma get_add_values_at values : forall i row j,
  i < j -> j <= i + List.length values ->
  get (value_name j) (add_values i values row)
  = option_map CVal (nth_error values (j - S i)).
Proof.
  induction values as [|v rest IH]; intros i row j H1 H2; simpl in *.
  - lia.
  - destruct (Nat.eq_dec j (S i)) as [->|Hne].
    + rewrite Nat.sub_diag. simpl.
      rewrite get_add_values_other.
      * apply get_set_same.
      * intros j' H3 _ E. apply value_name_inj in E. lia.
    + rewrite IH by lia.
      replace (j - S i) with (S (j - S (S i))) by lia. reflexivity.
Qed.

Lemma keys_add_values values : forall i row,
  (forall j, i < j -> get (value_name j) row = None) ->
  keys (add_values i values row)
  = (keys row ++ map value_name (seq (S i) (List.length values)))%list.
Proof.
  induction values as [|v rest IH]; intros i row Hfresh; simpl.
  - now rewrite app_nil_r.
  - rewrite IH.
    + rewrite keys_set_fresh by (apply Hfresh; lia).
      now rewrite <- app_assoc.
    + intros j Hj. rewrite get_set_other.
      * apply Hfresh. lia.
      * intros E. apply value_name_inj in E. lia.
Qed.

Lemma list_record_flat mat prop idx values :
  list_record mat prop idx values
  = row_of_flat (mkFlat mat prop idx values (fields_of values)).
Proof. destruct values; reflexivity. Qed.

Lemma list_records_flat mat prop rows : forall idx,
  list_records mat prop idx rows
  = map (fun ir => row_of_flat
                     (mkFlat mat prop (fst ir) (snd ir) (fields_of (snd ir))))
        (combine (seq idx (List.length rows)) rows).
Proof.
  induction rows as [|values rest IH]; intros idx; simpl.
  - reflexivity.
  - now rewrite list_record_flat, IH.
Qed.

Lemma property_records_flat mat prop value :
  property_records mat prop value
  = map row_of_flat (property_view mat prop value).
Proof.
  destruct value; try reflexivity.
  simpl. rewrite list_records_flat, map_map. reflexivity.
Qed.

Lemma material_records_flat mat props :
  material_records mat props = map row_of_flat (material_view mat props).
Proof.
  unfold material_records, material_view.
  induction props as [|[k v] rest IH]; simpl.
  - reflexivity.
  - now rewrite map_app, IH, property_records_flat.
Qed.

(** The records the loops build are those of the flat view. *)
Lemma flatten_flat ms : flatten ms = map row_of_flat (flat_view ms).
Proof.
  unfold flatten, flat_view.
  induction ms as [|[k v] rest IH]; simpl.
  - reflexivity.
  - now rewrite map_app, IH, material_records_flat.
Qed.

Lemma keys_row_of_flat r :
  keys (row_of_flat r)
  = (["Material"; "Property"; "Row_Index"; "Values"]
       ++ map value_name (seq 1 (width r)))%list.
Proof.
  unfold row_of_flat. rewrite keys_add_values; [reflexivity|].
  intros j _. apply base_has_no_value.
Qed.

Lemma filter_value_names l :
  filter (fun k => PyStr.startswith k "Value_") (map value_name l)
  = map value_name l.
Proof.
  induction l as [|j l IH]; [reflexivity|].
  cbn [map filter]. rewrite value_name_is_value_col. now rewrite IH.
Qed.

Lemma value_cols_row_of_flat r :
  value_cols (row_of_flat r) = map value_name (seq 1 (width r)).
Proof.
  unfold value_cols. rewrite keys_row_of_flat.
  rewrite filter_app, filter_value_names. reflexivity.
Qed.

Lemma max_values_from rs : forall a,
  fold_left (fun mx row =>
               if Nat.ltb mx (List.length (value_cols row))
               then List.length (value_cols row) else mx)
            (map row_of_flat rs) a
  = Nat.max a (max_width rs).
Proof.
  unfold max_width.
  induction rs as [|r rs IH]; intros a; simpl.
  - now rewrite Nat.max_0_r.
  - rewrite IH, value_cols_row_of_flat, length_map, length_seq.
    destruct (Nat.ltb a (width r)) eqn:E.
    + apply Nat.ltb_lt in E. lia.
    + apply Nat.ltb_ge in E. lia.
Qed.

Lemma max_values_flat rs : max_values (map row_of_flat rs) = max_width rs.
Proof. unfold max_values. now rewrite max_values_from. Qed.

Lemma fieldnames_flat rs :
  fieldnames (map row_of_flat rs) = header (max_width rs).
Proof. unfold fieldnames, header. now rewrite max_values_flat. Qed.

Lemma nth_error_seq {A : Type} (l : list A) :
  map (fun j => nth_error l (j - 1)) (seq 1 (List.length l)) = map Some l.
Proof.
  induction l as [|x l IH]; simpl; [reflexivity|].
  f_equal. rewrite <- seq_shift, map_map, <- IH.
  apply map_ext_in. intros j Hj. apply in_seq in Hj.
  destruct j as [|j]; [lia|]. simpl. now rewrite Nat.sub_0_r.
Qed.

Lemma map_none_repeat {A : Type} (l : list nat) :
  map (fun _ => @None A) l = repeat None (List.length l).
Proof. induction l; simpl; congruence. Qed.

Lemma base_key_no_value k :
  In k ["Material"; "Property"; "Row_Index"; "Values"] ->
  forall j, k <> value_name j.
Proof.
  simpl. intros H j.
  repeat (destruct H as [<-|H]; [unfold value_name; simpl; discriminate|]).
  destruct H.
Qed.

Lemma get_base_row_of_flat r k :
  In k ["Material"; "Property"; "Row_Index"; "Values"] ->
  get k (row_of_flat r)
  = get k (base_record (fr_material r) (fr_property r) (fr_index r)
                       (fr_shown r)).
Proof.
  intros H. unfold row_of_flat. apply get_add_values_other.
  intros j _ _. now apply base_key_no_value.
Qed.

(** The positional cells of a record under [n] columns. *)
Lemma positional_cells r n :
  width r <= n ->
  map (fun k => get k (row_of_flat r)) (map value_name (seq 1 n))
  = (map (fun v => Some (CVal v)) (fr_fields r)
       ++ repeat None (n - width r))%list.
Proof.
  intros Hle. rewrite map_map.
  replace n with (width r + (n - width r)) at 1 by lia.
  rewrite seq_app, map_app. f_equal.
  - transitivity (map (fun j => option_map CVal (nth_error (fr_fields r) (j - 1)))
                      (seq 1 (width r))).
    + apply map_ext_in. intros j Hj. apply in_seq in Hj.
      unfold row_of_flat. apply get_add_values_at; unfold width in *; lia.
    + rewrite <- (map_map (fun j => nth_error (fr_fields r) (j - 1))
                          (option_map CVal)).
      unfold width. rewrite nth_error_seq, map_map. reflexivity.
  - transitivity (map (fun _ => @None cell) (seq (1 + width r) (n - width r))).
    + apply map_ext_in. intros j Hj. apply in_seq in Hj.
      unfold row_of_flat. rewrite get_add_values_other.
      * apply base_has_no_value.
      * intros j' H1 H2 E. apply value_name_inj in E. unfold width in *. lia.
    + now rewrite map_none_repeat, length_seq.
Qed.

Lemma dict_to_list_flat r n :
  width r <= n ->
  dict_to_list (header n) (row_of_flat r) = Some (render n r).
Proof.
  intros Hle. unfold dict_to_list.
  assert (F : forallb (fun k => existsb (String.eqb k) (header n))
                      (keys (row_of_flat r)) = true).
  { apply forallb_forall. intros k Hk. apply existsb_exists.
    exists k. split; [|apply String.eqb_refl].
    rewrite keys_row_of_flat in Hk. unfold header.
    apply in_app_iff in Hk as [Hk|Hk]; apply in_app_iff; [now left|right].
    apply in_map_iff in Hk as (j & <- & Hj). apply in_map.
    apply in_seq in Hj. apply in_seq. lia. }
  rewrite F. f_equal. unfold header, render.
  rewrite map_app, (positional_cells r n Hle).
  cbn [map app].
  rewrite !get_base_row_of_flat by (simpl; tauto).
  reflexivity.
Qed.

Lemma writerows_flat n rs :
  Forall (fun r => width r <= n) rs ->
  writerows (header n) (map row_of_flat rs) = Some (map (render n) rs).
Proof.
  induction rs as [|r rs IH]; intros H; simpl.
  - reflexivity.
  - inversion H as [|? ? Hr Hrs]; subst.
    now rewrite (dict_to_list_flat r n Hr), (IH Hrs).
Qed.

Lemma width_le_max rs : Forall (fun r => width r <= max_width rs) rs.
Proof.
  unfold max_width.
  assert (H : Forall (fun k => k <= list_max (map width rs)) (map width rs))
    by now apply list_max_le.
  apply Forall_map in H. exact H.
Qed.

(** C7.  When the export has at least one record, [save_to_csv]
    raises nothing and writes the header
    [Material, Property, Row_Index, Values, Value_1 ... Value_N], [N]
    the greatest number of positional fields of any record of the
    whole export, and then one line per record of the flat view: the
    four leading cells, the fields of the record, and a blank for each
    of the remaining positional columns.  A record of a scalar
    property has no field, so all its positional cells are blank. *)
Theorem csv_header_and_blanks ms :
  flat_view ms <> [] ->
  let n := max_width (flat_view ms) in
  save_to_csv ms
  = Some (Written
            (["Material"; "Property"; "Row_Index"; "Values"]
               ++ map value_name (seq 1 n))%list
            (map (render n) (flat_view ms)))
  /\ Forall (fun r => width r <= n) (flat_view ms)
  /\ Exists (fun r => width r = n) (flat_view ms).
Proof.
  intros Hne n. repeat split.
  - unfold save_to_csv. rewrite flatten_flat.
    destruct (flat_view ms) as [|r rs] eqn:V; [congruence|].
    change (map row_of_flat (r :: rs))
      with (row_of_flat r :: map row_of_flat rs) at 1.
    cbv iota. change (row_of_flat r :: map row_of_flat rs)
      with (map row_of_flat (r :: rs)).
    rewrite fieldnames_flat. fold n.
    rewrite (writerows_flat n (r :: rs)); [reflexivity|].
    apply width_le_max.
  - apply width_le_max.
  - unfold n, max_width.
    assert (forall l, l <> [] -> In (list_max l) l) as Hin.
    { induction l as [|a l IH]; [congruence|]. intros _. simpl.
      destruct l as [|b l]; [left; simpl; lia|].
      destruct (Nat.max_spec a (list_max (b :: l))) as [[_ ->]|[_ ->]].
      - right. apply IH. discriminate.
      - now left. }
    apply Exists_exists.
    destruct (flat_view ms) as [|r rs]; [congruence|].
    specialize (Hin (map width (r :: rs))). 
    apply in_map_iff in Hin as (x & Hx & Hi); [|discriminate].
    exists x. auto.
Qed.

Lemma csv_header_and_blanks_witness :
  save_to_csv [("Steel", [("Elastic", PList [PList [PFloat (FDec false 21 4);
                                                    PFloat (FDec false 3 (-1))];
                                             PList [PStr "x"]]);
                          ("Depvar", PInt 15)])]
  = Some (Written
            ["Material"; "Property"; "Row_Index"; "Values";
             "Value_1"; "Value_2"]
            [[Some (CText "Steel"); Some (CText "Elastic"); Some (CIndex 0);
              Some (CStrOf (PList [PFloat (FDec false 21 4);
                                   PFloat (FDec false 3 (-1))]));
              Some (CVal (PFloat (FDec false 21 4)));
              Some (CVal (PFloat (FDec false 3 (-1))))];
             [Some (CText "Steel"); Some (CText "Elastic"); Some (CIndex 1);
              Some (CStrOf (PList [PStr "x"]));
              Some (CVal (PStr "x")); None];
             [Some (CText "Steel"); Some (CText "Depvar"); Some (CIndex 0);
              Some (CStrOf (PInt 15)); None; None]]).
Proof.
  refine (proj1 (csv_header_and_blanks
                   [("Steel", [("Elastic",
                                PList [PList [PFloat (FDec false 21 4);
                                              PFloat (FDec false 3 (-1))];
                                       PList [PStr "x"]]);
                               ("Depvar", PInt 15)])] _)).
  vm_compute. discriminate.
Defined.

Lemma of_material_row name r :
  of_material name (row_of_flat r) = String.eqb (fr_material r) name.
Proof.
  unfold of_material. rewrite get_base_row_of_flat by (simpl; tauto).
  reflexivity.
Qed.

Lemma property_view_material mat prop value r :
  In r (property_view mat prop value) -> fr_material r = mat.
Proof.
  destruct value; simpl; try (intros [<-|[]]; reflexivity).
  intros H. apply in_map_iff in H as (ir & <- & _). reflexivity.
Qed.

Lemma material_view_material mat props r :
  In r (material_view mat props) -> fr_material r = mat.
Proof.
  unfold material_view. intros H.
  apply in_flat_map in H as (kv & _ & H).
  eapply property_view_material; eassumption.
Qed.

Lemma filter_material_records name mat props :
  filter (of_material name) (material_records mat props)
  = if String.eqb mat name then material_records mat props else [].
Proof.
  rewrite material_records_flat.
  pose proof (material_view_material mat props) as H.
  induction (material_view mat props) as [|r rs IH]; simpl.
  - now destruct (String.eqb mat name).
  - rewrite of_material_row, (H r (or_introl eq_refl)).
    rewrite IH by (intros r' Hr'; apply H; now right).
    now destruct (String.eqb mat name).
Qed.

Lemma length_list_records mat prop rows : forall idx,
  List.length (list_records mat prop idx rows) = List.length rows.
Proof. induction rows; intros idx; simpl; auto. Qed.

Lemma length_material_records mat props :
  List.length (material_records mat props) = list_sum (map entry_count props).
Proof.
  unfold material_records.
  induction props as [|[k v] rest IH]; simpl; [reflexivity|].
  rewrite length_app, IH. f_equal.
  unfold entry_count. destruct v; simpl; try reflexivity.
  apply length_list_records.
Qed.

Lemma filter_absent_material name ms :
  ~ In name (keys ms) -> filter (of_material name) (flatten ms) = [].
Proof.
  unfold flatten, keys. induction ms as [|[k v] rest IH]; simpl; intros H.
  - reflexivity.
  - rewrite filter_app, filter_material_records.
    destruct (String.eqb k name) eqn:E.
    + apply String.eqb_eq in E. exfalso. apply H. now left.
    + apply IH. intros Hin. apply H. now right.
Qed.

(** C6.  In the records [save_to_csv] builds for a material set, those
    of one material are as many as the sum, over the entries of that
    material, of the number of rows of a list-valued entry and of 1
    for a scalar one.  (The keys of a dictionary are distinct.) *)
Theorem flat_record_count ms name props :
  NoDup (keys ms) ->
  In (name, props) ms ->
  List.length (filter (of_material name) (flatten ms))
  = list_sum (map entry_count props).
Proof.
  unfold keys. induction ms as [|[k v] rest IH]; intros Hnd Hin.
  - destruct Hin.
  - simpl in Hnd. inversion Hnd as [|? ? Hk Hrest]; subst.
    change (flatten ((k, v) :: rest))
      with (material_records k v ++ flatten rest)%list.
    rewrite filter_app, length_app, filter_material_records.
    destruct Hin as [[= -> ->]|Hin].
    + rewrite String.eqb_refl, (filter_absent_material name rest Hk).
      rewrite length_material_records. simpl. lia.
    + assert (Hne : k <> name).
      { intros ->. apply Hk. apply in_map_iff. now exists (name, props). }
      apply String.eqb_neq in Hne. rewrite Hne. simpl.
      now apply IH.
Qed.

Lemma flat_record_count_witness :
  List.length
    (filter (of_material "Steel")
            (flatten [("Al", [("Density", PList [PList [PFloat (FDec false 27 2)]])]);
                      ("Steel", [("Elastic", PList [PList [PFloat (FDec false 21 4)];
                                                    PList [PStr "x"]]);
                                 ("Elastic_Type", PStr "ISO");
                                 ("Density", PList [])])]))
  = 3.
Proof.
  apply (flat_record_count
           [("Al", [("Density", PList [PList [PFloat (FDec false 27 2)]])]);
            ("Steel", [("Elastic", PList [PList [PFloat (FDec false 21 4)];
                                          PList [PStr "x"]]);
                       ("Elastic_Type", PStr "ISO");
                       ("Density", PList [])])]
           "Steel"
           [("Elastic", PList [PList [PFloat (FDec false 21 4)];
                               PList [PStr "x"]]);
            ("Elastic_Type", PStr "ISO");
            ("Density", PList [])]).
  - repeat constructor; simpl; intuition discriminate.
  - right. left. reflexivity.
Defined.

End CsvProperties.

(* ================================================================== *)
(** ** Further properties of the parser *)
(* ================================================================== *)

Module ParserExtras.
Import PyStr Dict DictFacts StrFacts Machine MachineFacts Declared Shape.

Lemma extract_is_run_next lines :
  extract_material_properties lines = Some (materials (run_next init lines)).
Proof.
  unfold extract_material_properties.
  now rewrite (run_is_run_next lines init init_inv).
Qed.

Lemma run_next_cons st raw rest :
  run_next st (raw :: rest) = run_next (next_raw st raw) rest.
Proof. reflexivity. Qed.

(** X1.  Whatever stands before the first line that declares a
    material is ignored: a prefix none of whose lines declares a
    material can be removed without changing the result, and a file
    that declares no material gives the empty result. *)
Theorem lines_before_first_material_ignored pre rest :
  Forall declares_nothing pre ->
  extract_material_properties (pre ++ rest) = extract_material_properties rest
  /\ extract_material_properties pre = Some [].
Proof.
  intros H. rewrite !extract_is_run_next, run_next_app.
  rewrite (run_next_idle pre init eq_refl H). split; reflexivity.
Qed.

Lemma lines_before_first_material_ignored_witness :
  extract_material_properties
    (["*HEADING"; "*ELASTIC"; "1.0, 2.0"; "*MATERIAL"] ++ ["*MATERIAL, name=A"])
  = extract_material_properties ["*MATERIAL, name=A"].
Proof.
  apply (proj1 (lines_before_first_material_ignored
                  ["*HEADING"; "*ELASTIC"; "1.0, 2.0"; "*MATERIAL"]
                  ["*MATERIAL, name=A"]
                  ltac:(repeat constructor; intros line [= <-];
                        vm_compute; reflexivity))).
Defined.

(** A keyword line that opens no property, a [*MATERIAL] line without
    a name apart, leaves the parser not reading. *)
Lemma next_not_opening st line :
  Inv st ->
  startswith line "*" = true ->
  nameless_material line = false ->
  opens line = None ->
  reading_data (next st line) = false.
Proof.
  intros I Hs Hnm Ho. unfold next. unfold nameless_material in Hnm.
  unfold opens in Ho.
  destruct (startswith (upper line) "*MATERIAL") eqn:Hn.
  { destruct (Re.search_attr "name" Re.not_space_comma line); [reflexivity|].
    discriminate. }
  rewrite Hs, andb_true_r.
  destruct (truthy (current_material st)) eqn:K.
  - apply truthy_some in K as (c & Hc & _).
    unfold apply_keyword. rewrite Hc.
    destruct (classify line) as [key a|[v|]| |]; try reflexivity.
    discriminate.
  - simpl. now destruct (not_truthy_none st I K).
Qed.

(** X2.  After a keyword line that opens no property (any keyword line
    but a recognised data-bearing one and a [*MATERIAL] line without a
    name), the non-keyword lines that follow are dropped: removing
    them from the file does not change the result. *)
Theorem stray_data_lines_dropped pre raw line stray post :
  clean raw = Some line ->
  startswith line "*" = true ->
  nameless_material line = false ->
  opens line = None ->
  Forall no_keyword stray ->
  extract_material_properties (pre ++ raw :: stray ++ post)
  = extract_material_properties (pre ++ raw :: post).
Proof.
  intros Hc Hs Hnm Ho Hd.
  rewrite !extract_is_run_next, !run_next_app, !run_next_cons, run_next_app.
  set (st := run_next init pre).
  assert (I : Inv st) by apply run_next_inv, init_inv.
  unfold next_raw. rewrite Hc.
  rewrite (run_next_not_reading stray (next st line)); [reflexivity| |exact Hd].
  now apply next_not_opening.
Qed.

Lemma stray_data_lines_dropped_witness :
  extract_material_properties
    (["*MATERIAL, name=A"; "*ELASTIC"; "1.0"]
       ++ "*DEPVAR" :: ["15"; "2.0, 3.0"] ++ ["*DENSITY"; "7.0"])
  = extract_material_properties
      (["*MATERIAL, name=A"; "*ELASTIC"; "1.0"]
         ++ "*DEPVAR" :: ["*DENSITY"; "7.0"]).
Proof.
  apply (stray_data_lines_dropped
           ["*MATERIAL, name=A"; "*ELASTIC"; "1.0"] "*DEPVAR" "*DEPVAR"
           ["15"; "2.0, 3.0"] ["*DENSITY"; "7.0"]
           eq_refl eq_refl eq_refl eq_refl).
  repeat constructor; intros line [= <-]; reflexivity.
Defined.

Lemma boundary_classified line :
  existsb (startswith (upper line)) non_material_keywords = true ->
  startswith (upper line) "*MATERIAL" = false /\
  classify line = SectionBoundary.
Proof.
  intros H. pose proof H as H'.
  unfold non_material_keywords in H'. cbn [existsb] in H'.
  repeat (apply orb_prop in H' as [H'|H']); try discriminate H';
    (split;
     [ match type of H' with
       | startswith ?s ?a = true =>
           apply (startswith_exclusive a "*MATERIAL" s eq_refl eq_refl H')
       end
     | unfold classify; do 11 skip_keyword H'; now rewrite H ]).
Qed.

(** X3.  A line that starts, in any case, with one of the twelve
    keywords [*STEP], [*PART], [*ASSEMBLY], [*ELEMENT], [*NODE],
    [*SECTION], [*SOLID SECTION], [*SHELL SECTION], [*BEAM SECTION],
    [*BOUNDARY], [*ELSET], [*NSET] closes the material: wherever it
    stands in a file, the lines after it change nothing in the result
    until one of them declares a material. *)
Theorem boundary_closes_material pre raw line later :
  clean raw = Some line ->
  existsb (startswith (upper line)) non_material_keywords = true ->
  Forall declares_nothing later ->
  extract_material_properties (pre ++ raw :: later)
  = extract_material_properties (pre ++ [raw]).
Proof.
  intros Hc Hb Hl.
  destruct (boundary_classified line Hb) as [Hn Hk].
  rewrite !extract_is_run_next, !run_next_app, !run_next_cons.
  set (st := run_next init pre).
  assert (I : Inv st) by apply run_next_inv, init_inv.
  unfold next_raw. rewrite Hc.
  rewrite (run_next_idle later); [reflexivity| |exact Hl].
  unfold next. rewrite Hn.
  destruct (truthy (current_material st) && startswith line "*") eqn:K.
  - apply andb_prop in K as [K _]. apply truthy_some in K as (c & Hcm & _).
    unfold apply_keyword. now rewrite Hcm, Hk.
  - assert (Ht : truthy (current_material st) = false).
    { destruct (truthy (current_material st)) eqn:T; [|reflexivity].
      try rewrite T in K. rewrite andb_true_l in K.
      assert (startswith line "*" = true).
      { unfold non_material_keywords in Hb. cbn [existsb] in Hb.
        repeat (apply orb_prop in Hb as [Hb|Hb]); try discriminate Hb;
          eapply starred_keyword; try exact Hb; reflexivity. }
      congruence. }
    rewrite Ht. simpl. now destruct (not_truthy_none st I Ht).
Qed.

Lemma boundary_closes_material_witness :
  extract_material_properties
    (["*MATERIAL, name=A"; "*DENSITY"; "7.0"]
       ++ "*Solid Section, elset=E" :: ["8.0"; "*ELASTIC"; "1.0, 2.0"])
  = extract_material_properties
      (["*MATERIAL, name=A"; "*DENSITY"; "7.0"] ++ ["*Solid Section, elset=E"]).
Proof.
  apply (boundary_closes_material
           ["*MATERIAL, name=A"; "*DENSITY"; "7.0"]
           "*Solid Section, elset=E" "*Solid Section, elset=E"
           ["8.0"; "*ELASTIC"; "1.0, 2.0"] eq_refl eq_refl).
  repeat constructor; intros line [= <-]; reflexivity.
Defined.

(** X4.  A line that is blank, or whose first two characters after
    the leading blanks are [**], is transparent: it can be inserted
    or removed anywhere without changing the result. *)
Theorem blank_and_comment_lines_transparent pre raw post :
  is_empty (strip raw) = true \/ startswith (strip raw) "**" = true ->
  extract_material_properties (pre ++ raw :: post)
  = extract_material_properties (pre ++ post).
Proof.
  intros H.
  assert (Hc : clean raw = None).
  { unfold clean. destruct H as [-> | H]; [reflexivity|].
    rewrite H. now destruct (is_empty (strip raw)). }
  rewrite !extract_is_run_next, !run_next_app, run_next_cons.
  unfold next_raw. now rewrite Hc.
Qed.

Lemma blank_and_comment_lines_transparent_witness :
  extract_material_properties
    (["*MATERIAL, name=A"; "*DENSITY"] ++ "  ** density in SI" :: ["7.0"])
  = extract_material_properties
      (["*MATERIAL, name=A"; "*DENSITY"] ++ ["7.0"]).
Proof.
  apply (blank_and_comment_lines_transparent
           ["*MATERIAL, name=A"; "*DENSITY"] "  ** density in SI" ["7.0"]).
  right. reflexivity.
Defined.

(** X5.  A keyword line that the chain does not recognise (no
    [*MATERIAL] line, no property keyword, no boundary keyword) and
    that stands right before another keyword line has no effect: the
    result is the same without it.  (The keyword line after it must
    not be a [*MATERIAL] line without a name, which would leave the
    reading state to the line before.) *)
Theorem unrecognised_keyword_before_keyword pre other lo raw lk post :
  clean other = Some lo ->
  startswith lo "*" = true ->
  startswith (upper lo) "*MATERIAL" = false ->
  classify lo = OtherKeyword ->
  clean raw = Some lk ->
  startswith lk "*" = true ->
  nameless_material lk = false ->
  extract_material_properties (pre ++ other :: raw :: post)
  = extract_material_properties (pre ++ raw :: post).
Proof.
  intros Ho Hso Hno Hko Hc Hs Hnm.
  rewrite !extract_is_run_next, !run_next_app, !run_next_cons.
  set (st := run_next init pre).
  unfold next_raw. rewrite Ho, Hc.
  assert (E : next (next st lo) lk = next st lk); [|now rewrite E].
  unfold next at 2. rewrite Hno, Hso, andb_true_r.
  destruct (truthy (current_material st)) eqn:T.
  2:{ simpl. reflexivity. }
  cbn [andb]. apply truthy_some in T as (c & Hcm & Hce).
  unfold apply_keyword. rewrite Hcm, Hko.
  unfold next. unfold nameless_material in Hnm.
  destruct (startswith (upper lk) "*MATERIAL").
  { destruct (Re.search_attr "name" Re.not_space_comma lk); [reflexivity|].
    discriminate. }
  cbn [materials current_material current_property reading_data].
  rewrite Hcm, Hs. simpl truthy. rewrite Hce. cbn [negb andb].
  unfold apply_keyword.
  cbn [materials current_material current_property reading_data].
  rewrite Hcm. destruct (classify lk) as [key a|[v|]| |]; reflexivity.
Qed.

Lemma unrecognised_keyword_before_keyword_witness :
  extract_material_properties
    (["*MATERIAL, name=A"; "*ELASTIC"; "1.0"]
       ++ "*ORIENTATION" :: "*DENSITY" :: ["7.0"])
  = extract_material_properties
      (["*MATERIAL, name=A"; "*ELASTIC"; "1.0"] ++ "*DENSITY" :: ["7.0"]).
Proof.
  apply (unrecognised_keyword_before_keyword
           ["*MATERIAL, name=A"; "*ELASTIC"; "1.0"]
           "*ORIENTATION" "*ORIENTATION" "*DENSITY" "*DENSITY" ["7.0"]);
    reflexivity.
Defined.

Lemma keys_set_remember {V : Type} k (v : V) d :
  keys (set k v d) = remember (keys d) k.
Proof.
  unfold keys, remember. induction d as [|[k' v'] r IH]; simpl.
  - reflexivity.
  - rewrite (String.eqb_sym k k').
    destruct (String.eqb k' k) eqn:E; simpl.
    + apply String.eqb_eq in E. now subst.
    + rewrite IH. now destruct (existsb (String.eqb k) (map fst r)).
Qed.

Lemma keys_set_known {V : Type} k (v v0 : V) d :
  get k d = Some v0 -> keys (set k v d) = keys d.
Proof.
  unfold keys. induction d as [|[k' v'] r IH]; simpl; [discriminate|].
  destruct (String.eqb k' k) eqn:E; simpl.
  - apply String.eqb_eq in E. now subst.
  - intros H. now rewrite IH.
Qed.

Lemma keys_update m f ms : keys (update m f ms) = keys ms.
Proof.
  unfold update. destruct (get m ms) as [props|] eqn:G; [|reflexivity].
  eapply keys_set_known. eassumption.
Qed.

Lemma keys_next st line :
  keys (materials (next st line))
  = match material_start line with
    | Some name => remember (keys (materials st)) name
    | None => keys (materials st)
    end.
Proof.
  unfold next, material_start.
  destruct (startswith (upper line) "*MATERIAL").
  { destruct (Re.search_attr "name" Re.not_space_comma line); [|reflexivity].
    cbn [materials]. apply keys_set_remember. }
  destruct (truthy (current_material st) && startswith line "*").
  { unfold apply_keyword. destruct (current_material st); [|reflexivity].
    destruct (classify line) as [key a|[v|]| |]; cbn [materials];
      rewrite ?keys_update; reflexivity. }
  destruct (_ && _); [|reflexivity].
  unfold apply_data. destruct (data_values line); [reflexivity|].
  destruct (current_material st); [|reflexivity].
  destruct (current_property st); [|reflexivity].
  cbn [materials]. apply keys_update.
Qed.

Lemma keys_run_next lines : forall st,
  keys (materials (run_next st lines))
  = fold_left remember (declared lines) (keys (materials st)).
Proof.
  induction lines as [|raw rest IH]; intros st.
  - reflexivity.
  - rewrite run_next_cons, IH. unfold declared at 2. cbn [flat_map].
    rewrite fold_left_app. f_equal.
    unfold next_raw, declared_name.
    destruct (clean raw) as [line|]; [|reflexivity].
    rewrite keys_next. destruct (material_start line); reflexivity.
Qed.









Lemma data_values_nonempty line t :
  In t (data_values line) -> is_empty t = false.
Proof.
  unfold data_values. intros H.
  apply in_map_iff in H as (v & <- & Hv).
  apply filter_In in Hv as [_ Hv]. now destruct (is_empty (strip v)).
Qed.









Lemma is_empty_app a b : is_empty b = false -> is_empty (a ++ b) = false.
Proof. destruct a; simpl; auto. Qed.

Lemma drop_while_app_kept p a b :
  is_empty (drop_while p a) = false ->
  drop_while p (a ++ b) = drop_while p a ++ b.
Proof.
  induction a as [|x a IH]; simpl; [discriminate|].
  destruct (p x); [exact IH|reflexivity].
Qed.

Lemma drop_while_app_gone p a b :
  is_empty (drop_while p a) = true ->
  drop_while p (a ++ b) = drop_while p b.
Proof.
  induction a as [|x a IH]; simpl; [reflexivity|].
  destruct (p x); [exact IH|discriminate].
Qed.

Lemma drop_while_idem p a : drop_while p (drop_while p a) = drop_while p a.
Proof.
  induction a as [|x a IH]; simpl; [reflexivity|].
  destruct (p x) eqn:E; [exact IH|]. simpl. now rewrite E.
Qed.

Lemma rstrip_app a b :
  is_empty (rstrip b) = false -> rstrip (a ++ b) = a ++ rstrip b.
Proof.
  intros Hb. induction a as [|x a IH]; simpl; [reflexivity|].
  rewrite IH, (is_empty_app a (rstrip b) Hb). now rewrite andb_false_r.
Qed.

Lemma rstrip_idem s : rstrip (rstrip s) = rstrip s.
Proof.
  induction s as [|x s IH]; simpl; [reflexivity|].
  destruct (is_space x && is_empty (rstrip s)) eqn:E; [reflexivity|].
  simpl. now rewrite IH, E.
Qed.

Lemma prefixes_rstrip p : forall s,
  prefixes p (rstrip s) = true -> prefixes p s = true.
Proof.
  induction p as [|y p IH]; intros s; [reflexivity|].
  destruct s as [|x s]; simpl; [discriminate|].
  destruct (is_space x && is_empty (rstrip s)); simpl; [discriminate|].
  intros H. apply andb_prop in H as [H1 H2]. now rewrite H1, (IH s H2).
Qed.

Lemma contains_rstrip sub s :
  contains sub (rstrip s) = true -> contains sub s = true.
Proof.
  induction s as [|x s IH]; [exact (fun H => H)|].
  intros H.
  destruct (prefixes sub (rstrip (String x s))) eqn:P.
  - apply prefixes_rstrip in P. cbn [contains]. now rewrite P.
  - cbn [rstrip] in *.
    destruct (is_space x && is_empty (rstrip s)).
    + cbn [contains] in H. rewrite P in H. discriminate.
    + cbn [contains] in H. rewrite P in H. cbn [orb] in H.
      cbn [contains]. rewrite (IH H). apply orb_true_r.
Qed.

Lemma contains_drop_while sub p a t :
  contains sub (drop_while p a ++ t) = true -> contains sub (a ++ t) = true.
Proof.
  induction a as [|x a IH]; [exact (fun H => H)|].
  cbn [drop_while]. destruct (p x); [|exact (fun H => H)].
  intros H. change (String x a ++ t) with (String x (a ++ t)).
  cbn [contains]. rewrite (IH H). apply orb_true_r.
Qed.

Lemma prefixes_app_left p : forall a b,
  prefixes p a = true -> prefixes p (a ++ b) = true.
Proof.
  induction p as [|y p IH]; intros a b; [reflexivity|].
  destruct a as [|x a]; simpl; [discriminate|].
  intros H. apply andb_prop in H as [H1 H2]. now rewrite H1, (IH a b H2).
Qed.

Lemma prefixes_self p c : prefixes p (p ++ c) = true.
Proof.
  induction p as [|y p IH]; [reflexivity|].
  simpl. now rewrite Ascii.eqb_refl, IH.
Qed.

Lemma contains_app_left sub a b :
  contains sub a = true -> contains sub (a ++ b) = true.
Proof.
  induction a as [|x a IH].
  - cbn [contains]. rewrite orb_false_r. intros H.
    destruct sub; [|discriminate]. now destruct b.
  - cbn [contains]. intros H. apply orb_prop in H as [H|H].
    + change (String x a ++ b) with (String x (a ++ b)).
      pose proof (prefixes_app_left sub (String x a) b H) as P.
      change (String x a ++ b) with (String x (a ++ b)) in P.
      cbn [contains]. now rewrite P.
    + change (String x a ++ b) with (String x (a ++ b)).
      cbn [contains]. rewrite (IH H). apply orb_true_r.
Qed.

Lemma contains_app_right sub a c : contains sub (a ++ sub ++ c) = true.
Proof.
  induction a as [|x a IH].
  - change ("" ++ sub ++ c) with (sub ++ c).
    destruct (sub ++ c) eqn:E; cbn [contains]; rewrite <- E, prefixes_self;
      reflexivity.
  - change (String x a ++ sub ++ c) with (String x (a ++ sub ++ c)).
    cbn [contains]. rewrite IH. apply orb_true_r.
Qed.

(** A text that holds no [**], also when a star is put after it,
    does not start a comment whatever follows it. *)
Lemma no_marker_at_head a r :
  contains "**" (a ++ "*") = false -> is_empty a = false ->
  prefixes "**" (a ++ r) = false.
Proof.
  destruct a as [|x t]; [discriminate|]. intros H _.
  change (String x t ++ "*") with (String x (t ++ "*")) in H.
  cbn [contains] in H. apply orb_false_elim in H as [H _].
  change (String x t ++ r) with (String x (t ++ r)).
  cbn [prefixes] in *.
  destruct (Ascii.eqb "*" x); [|reflexivity]. cbn [andb] in *.
  destruct t as [|y t]; [discriminate H|].
  change (String y t ++ "*") with (String y (t ++ "*")) in H.
  change (String y t ++ r) with (String y (t ++ r)).
  cbn [prefixes] in *. now destruct (Ascii.eqb "*" y).
Qed.

Lemma no_marker_tail x t :
  contains "**" (String x t ++ "*") = false ->
  contains "**" (t ++ "*") = false.
Proof.
  change (String x t ++ "*") with (String x (t ++ "*")).
  cbn [contains]. intros H. now apply orb_false_elim in H as [_ H].
Qed.

Lemma split_head_before_marker a c :
  contains "**" (a ++ "*") = false ->
  split_head "**" (a ++ "**" ++ c) = a.
Proof.
  induction a as [|x t IH]; intros H.
  - reflexivity.
  - change (String x t ++ "**" ++ c) with (String x (t ++ "**" ++ c)).
    cbn [split_head].
    pose proof (no_marker_at_head (String x t) ("**" ++ c) H eq_refl) as P.
    change (String x t ++ "**" ++ c) with (String x (t ++ "**" ++ c)) in P.
    rewrite P, IH; [reflexivity|]. eapply no_marker_tail. eassumption.
Qed.

(** The cleaned form of a text followed by a comment is the cleaned
    form of the text. *)
Lemma clean_inline_comment a c :
  contains "**" (a ++ "*") = false ->
  clean (a ++ "**" ++ c) = clean a.
Proof.
  intros H. unfold clean, strip, lstrip.
  destruct (is_empty (drop_while is_space a)) eqn:E.
  - rewrite (drop_while_app_gone is_space a _ E).
    assert (Ea : drop_while is_space a = "") by
      (destruct (drop_while is_space a); [reflexivity|discriminate]).
    rewrite Ea. reflexivity.
  - set (a' := drop_while is_space a) in *.
    assert (H' : contains "**" (a' ++ "*") = false).
    { destruct (contains "**" (a' ++ "*")) eqn:C; [|reflexivity].
      apply contains_drop_while in C. congruence. }
    assert (Ha : contains "**" a' = false).
    { destruct (contains "**" a') eqn:C; [|reflexivity].
      apply (contains_app_left _ _ "*") in C. congruence. }
    assert (Hr : is_empty (rstrip a') = false).
    { unfold a' in *. clear -E.
      induction a as [|x a IH]; simpl in *; [discriminate|].
      destruct (is_space x) eqn:S; [now apply IH|].
      simpl. now rewrite S. }
    rewrite (drop_while_app_kept is_space a _ E). fold a'.
    assert (R : rstrip (a' ++ "**" ++ c) = a' ++ "**" ++ rstrip c).
    { apply (rstrip_app a' ("**" ++ c)). reflexivity. }
    rewrite R, (is_empty_app a' ("**" ++ rstrip c) eq_refl).
    unfold startswith.
    rewrite (no_marker_at_head a' _ H' E), contains_app_right.
    rewrite (split_head_before_marker a' (rstrip c) H').
    unfold a' at 1 2. rewrite drop_while_idem. fold a'. rewrite Hr.
    destruct (prefixes "**" (rstrip a')) eqn:P.
    { apply prefixes_rstrip in P.
      apply (prefixes_app_left _ _ "*") in P.
      rewrite (no_marker_at_head a' "*" H' E) in P. discriminate. }
    destruct (contains "**" (rstrip a')) eqn:C; [|reflexivity].
    apply contains_rstrip in C. congruence.
Qed.

(** X8.  An inline comment is ignored: a line made of a text, the
    marker [**] and anything after it is read as the text alone,
    provided the text holds no [**] itself and does not end in a star
    (which would move the marker one character to the left). *)
Theorem inline_comment_ignored pre a c post :
  contains "**" (a ++ "*") = false ->
  extract_material_properties (pre ++ (a ++ "**" ++ c) :: post)
  = extract_material_properties (pre ++ a :: post).
Proof.
  intros H.
  rewrite !extract_is_run_next, !run_next_app, !run_next_cons.
  unfold next_raw. now rewrite (clean_inline_comment a c H).
Qed.

Lemma inline_comment_ignored_witness :
  extract_material_properties
    (["*MATERIAL, name=A"]
       ++ ("*Elastic, type=ISO " ++ "**" ++ " steel, name=B") :: ["1.0 ** E"])
  = extract_material_properties
      (["*MATERIAL, name=A"] ++ "*Elastic, type=ISO " :: ["1.0 ** E"]).
Proof.
  apply (inline_comment_ignored
           ["*MATERIAL, name=A"] "*Elastic, type=ISO " " steel, name=B"
           ["1.0 ** E"]).
  reflexivity.
Defined.

Lemma drop_while_head p s x t : drop_while p s = String x t -> p x = false.
Proof.
  induction s as [|y s IH]; simpl; [discriminate|].
  destruct (p y) eqn:E; [exact IH|]. now intros [= <- _].
Qed.

Lemma strip_idem s : strip (strip s) = strip s.
Proof.
  unfold strip, lstrip.
  destruct (drop_while is_space s) as [|x t] eqn:E; [reflexivity|].
  pose proof (drop_while_head _ _ _ _ E) as Hx.
  assert (R : rstrip (String x t) = String x (rstrip t))
    by (simpl; now rewrite Hx).
  rewrite R. cbn [drop_while]. rewrite Hx, <- R. apply rstrip_idem.
Qed.

Lemma all_chars_drop_while p q s :
  all_chars p s = true -> all_chars p (drop_while q s) = true.
Proof.
  induction s as [|x s IH]; simpl; [reflexivity|].
  intros H. destruct (q x); [|exact H].
  apply andb_prop in H as [_ H]. now apply IH.
Qed.

Lemma all_chars_rstrip p s :
  all_chars p s = true -> all_chars p (rstrip s) = true.
Proof.
  induction s as [|x s IH]; simpl; [reflexivity|].
  intros H. apply andb_prop in H as [H1 H2].
  destruct (is_space x && is_empty (rstrip s)); [reflexivity|].
  simpl. now rewrite H1, IH.
Qed.

Lemma split_pieces c s :
  Forall (fun piece => all_chars (fun x => negb (Ascii.eqb x c)) piece = true)
         (split c s).
Proof.
  induction s as [|a s IH]; simpl.
  - repeat constructor.
  - destruct (Ascii.eqb a c) eqn:E.
    + constructor; [reflexivity|exact IH].
    + destruct (split c s) as [|h r].
      * repeat constructor. simpl. now rewrite E.
      * inversion IH as [|? ? Hh Hr]; subst.
        constructor; [|exact Hr]. simpl. now rewrite E, Hh.
Qed.

(** X9.  Every token of a data line is clean: it is not empty, it has
    no blank at either end (trimming it again changes nothing), and it
    holds no comma. *)
Theorem data_tokens_clean line t :
  In t (data_values line) ->
  is_empty t = false /\ strip t = t /\
  all_chars (fun x => negb (Ascii.eqb x ",")) t = true.
Proof.
  intros H. split; [eapply data_values_nonempty; eassumption|].
  unfold data_values in H. apply in_map_iff in H as (v & <- & Hv).
  apply filter_In in Hv as [Hv _].
  split; [apply strip_idem|].
  unfold strip, lstrip. apply all_chars_rstrip, all_chars_drop_while.
  pose proof (split_pieces "," line) as F.
  rewrite Forall_forall in F. now apply F.
Qed.

Lemma data_tokens_clean_witness :
  is_empty "1.0e3" = false /\ strip "1.0e3" = "1.0e3" /\
  all_chars (fun x => negb (Ascii.eqb x ",")) "1.0e3" = true.
Proof.
  apply (data_tokens_clean " A b ,  1.0e3 ,, ").
  right. left. reflexivity.
Defined.

Lemma take_while_all p s : all_chars p (take_while p s) = true.
Proof.
  induction s as [|x s IH]; simpl; [reflexivity|].
  destruct (p x) eqn:E; [|reflexivity]. simpl. now rewrite E, IH.
Qed.

Lemma search_attr_class key cls s v :
  Re.search_attr key cls s = Some v -> all_chars cls v = true.
Proof.
  assert (M : forall u, Re.match_attr_here key cls u = Some v ->
                        all_chars cls v = true).
  { intros u. unfold Re.match_attr_here.
    destruct (Re.match_literal key u) as [r|]; [|discriminate].
    destruct (drop_while is_space r) as [|a r']; [discriminate|].
    destruct a as [[] [] [] [] [] [] [] []]; try discriminate.
    destruct (is_empty _); [discriminate|].
    intros [= <-]. apply take_while_all. }
  induction s as [|c s IH]; simpl;
    destruct (Re.match_attr_here key cls _) as [w|] eqn:E;
    try discriminate; try exact IH; intros [= <-]; eapply M; eassumption.
Qed.

Lemma in_fold_remember names : forall seen n,
  In n (fold_left remember names seen) -> In n seen \/ In n names.
Proof.
  induction names as [|x names IH]; intros seen n H; simpl in *; [auto|].
  apply IH in H as [H|H]; [|auto].
  unfold remember in H. destruct (existsb (String.eqb x) seen); [auto|].
  apply in_app_or in H as [H|[<-|[]]]; auto.
Qed.

(** X10.  Every key of the result is a proper name: it is not empty
    and it holds no blank and no comma. *)
Theorem material_names_proper lines ms name :
  extract_material_properties lines = Some ms ->
  In name (keys ms) ->
  is_empty name = false /\ all_chars Re.not_space_comma name = true.
Proof.
  rewrite extract_is_run_next. intros [= <-] H.
  rewrite keys_run_next in H. apply in_fold_remember in H as [[]|H].
  unfold declared in H. apply in_flat_map in H as (raw & _ & H).
  unfold declared_name in H.
  destruct (clean raw) as [line|]; [|destruct H].
  unfold material_start in H.
  destruct (startswith (upper line) "*MATERIAL"); [|destruct H].
  destruct (Re.search_attr "name" Re.not_space_comma line) as [n|] eqn:S;
    [|destruct H].
  destruct H as [<-|[]]. split.
  - eapply search_attr_nonempty; eassumption.
  - eapply search_attr_class; eassumption.
Qed.

Lemma material_names_proper_witness :
  is_empty "Steel-S355" = false /\
  all_chars Re.not_space_comma "Steel-S355" = true.
Proof.
  apply (material_names_proper
           ["*Material, NAME = Steel-S355 , description=x"]
           [("Steel-S355", [])] "Steel-S355" eq_refl).
  left. reflexivity.
Defined.

Lemma clean_strip raw : clean (strip raw) = clean raw.
Proof. unfold clean. now rewrite strip_idem. Qed.

(** X14.  The blanks around a line never matter: indentation, trailing
    blanks and the line end that [readlines] keeps can be trimmed
    from every line without changing the result. *)
Theorem surrounding_blanks_ignored lines :
  extract_material_properties (map strip lines)
  = extract_material_properties lines.
Proof.
  rewrite !extract_is_run_next. f_equal.
  generalize init as st.
  induction lines as [|raw rest IH]; intros st; [reflexivity|].
  cbn [map]. rewrite !run_next_cons, IH.
  unfold next_raw. now rewrite clean_strip.
Qed.

End ParserExtras.

(* ================================================================== *)
(** ** Further properties of the CSV flattening and of the report *)
(* ================================================================== *)

Module CsvExtras.
Import Dict DictFacts Csv FlatView CsvProperties Report.

(** What [save_to_csv] returns, through the flat view. *)
Lemma save_to_csv_flat ms :
  save_to_csv ms =
  match flat_view ms with
  | [] => Some NoData
  | _ :: _ =>
      Some (Written (header (max_width (flat_view ms)))
                    (map (render (max_width (flat_view ms))) (flat_view ms)))
  end.
Proof.
  unfold save_to_csv. rewrite flatten_flat.
  destruct (flat_view ms) as [|r rs] eqn:V; [reflexivity|].
  change (map row_of_flat (r :: rs))
    with (row_of_flat r :: map row_of_flat rs) at 1.
  cbv iota. change (row_of_flat r :: map row_of_flat rs)
    with (map row_of_flat (r :: rs)).
  rewrite fieldnames_flat.
  now rewrite (writerows_flat _ (r :: rs) (width_le_max (r :: rs))).
Qed.

Lemma flat_map_nil {A B : Type} (f : A -> list B) l :
  flat_map f l = [] <-> forall x, In x l -> f x = [].
Proof.
  induction l as [|a l IH]; simpl.
  - split; [intros _ x []|reflexivity].
  - split.
    + intros H. apply app_eq_nil in H as [H1 H2].
      intros x [<-|Hx]; [exact H1|]. now apply IH.
    + intros H. rewrite (H a (or_introl eq_refl)).
      apply IH. intros x Hx. apply H. now right.
Qed.

Lemma property_records_nil mat prop v :
  property_records mat prop v = [] <-> v = PList [].
Proof.
  destruct v as [z|f|s|rows]; simpl; try (split; discriminate).
  destruct rows; simpl; split; (discriminate || reflexivity).
Qed.

(** X11.  [save_to_csv] never raises: the check of [DictWriter] for
    keys outside the header never fires.  It writes no file exactly
    when there is no record, that is when every property of every
    material is an empty list; else it writes a header and lines. *)
Theorem csv_never_raises ms :
  (save_to_csv ms = Some NoData \/
   exists h ls, save_to_csv ms = Some (Written h ls)) /\
  (save_to_csv ms = Some NoData <->
   forall mat props key v,
     In (mat, props) ms -> In (key, v) props -> v = PList []).
Proof.
  assert (E : flatten ms = [] <->
              forall mat props key v,
                In (mat, props) ms -> In (key, v) props -> v = PList []).
  { unfold flatten. rewrite flat_map_nil. split.
    - intros H mat props key v Hm Hk.
      specialize (H (mat, props) Hm). unfold material_records in H.
      rewrite flat_map_nil in H. specialize (H (key, v) Hk).
      now apply property_records_nil in H.
    - intros H [mat props] Hm. unfold material_records.
      apply flat_map_nil. intros [key v] Hk.
      apply property_records_nil. eapply H; eassumption. }
  rewrite <- E, flatten_flat, save_to_csv_flat.
  destruct (flat_view ms) as [|r rs]; simpl.
  - split; [now left|]. split; reflexivity.
  - split; [right; eauto|]. split; discriminate.
Qed.

Lemma length_header n : List.length (header n) = 4 + n.
Proof. unfold header. simpl. now rewrite length_map, length_seq. Qed.

Lemma length_render n r : width r <= n -> List.length (render n r) = 4 + n.
Proof.
  intros H. unfold render. simpl.
  rewrite length_app, length_map, repeat_length. unfold width in *. lia.
Qed.

Lemma value_names_distinct l : NoDup l -> NoDup (map value_name l).
Proof.
  induction 1 as [|x l Hx Hl IH]; simpl; constructor; [|exact IH].
  intros H. apply in_map_iff in H as (y & E & Hy).
  apply value_name_inj in E. now subst.
Qed.

Lemma header_distinct n : NoDup (header n).
Proof.
  unfold header.
  assert (V : forall k, In k ["Material"; "Property"; "Row_Index"; "Values"] ->
                        ~ In k (map value_name (seq 1 n))).
  { intros k Hk H. apply in_map_iff in H as (j & E & _).
    symmetry in E. revert E. now apply base_key_no_value. }
  cbn [app].
  repeat (constructor;
          [ intros H; simpl in H;
            repeat (destruct H as [H|H]; [discriminate H|]);
            revert H; apply V; simpl; tauto | ]).
  apply value_names_distinct, seq_NoDup.
Qed.

Lemma length_flatten ms :
  List.length (flatten ms)
  = list_sum (map (fun kv => list_sum (map entry_count (snd kv))) ms).
Proof.
  unfold flatten. induction ms as [|[mat props] rest IH]; simpl.
  - reflexivity.
  - now rewrite length_app, IH, length_material_records.
Qed.

(** X12.  The table [save_to_csv] writes is well formed: the column
    names of the header are distinct, every line has exactly as many
    cells as the header has columns, and there are as many lines as
    the material set has rows and scalars in all. *)
Theorem csv_table_rectangular ms h ls :
  save_to_csv ms = Some (Written h ls) ->
  NoDup h /\
  Forall (fun l => List.length l = List.length h) ls /\
  List.length ls
  = list_sum (map (fun kv => list_sum (map entry_count (snd kv))) ms).
Proof.
  rewrite save_to_csv_flat. intros H.
  rewrite <- length_flatten, flatten_flat, length_map.
  destruct (flat_view ms) as [|r rs] eqn:V; [discriminate|].
  injection H as <- <-. split; [apply header_distinct|].
  split; [|simpl; now rewrite length_map].
  apply Forall_forall. intros l Hl.
  change (In l (map (render (max_width (r :: rs))) (r :: rs))) in Hl.
  apply in_map_iff in Hl as (x & <- & Hx).
  rewrite length_header. apply length_render.
  pose proof (width_le_max (r :: rs)) as W. rewrite Forall_forall in W.
  now apply W.
Qed.

Lemma csv_table_rectangular_witness :
  NoDup ["Material"; "Property"; "Row_Index"; "Values"; "Value_1"] /\
  Forall (fun l : list (option cell) => List.length l = 5)
         [[Some (CText "A"); Some (CText "Density"); Some (CIndex 0);
           Some (CStrOf (PList [PFloat (FDec false 7 0)]));
           Some (CVal (PFloat (FDec false 7 0)))];
          [Some (CText "A"); Some (CText "Depvar"); Some (CIndex 0);
           Some (CStrOf (PInt 3)); None]] /\
  2 = 2.
Proof.
  exact (csv_table_rectangular
           [("A", [("Density", PList [PList [PFloat (FDec false 7 0)]]);
                   ("Depvar", PInt 3)])]
           _ _ eq_refl).
Defined.

Lemma map_snd_combine_seq {A : Type} (l : list A) : forall i,
  map snd (combine (seq i (List.length l)) l) = l.
Proof. induction l as [|x l IH]; intros i; simpl; [reflexivity|]. now rewrite IH. Qed.

Lemma shown_values_app a b :
  shown_values (a ++ b) = (shown_values a ++ shown_values b)%list.
Proof. unfold shown_values. apply flat_map_app. Qed.

Lemma shown_values_property mat kv :
  shown_values (print_property kv)
  = map fr_shown (property_view mat (fst kv) (snd kv)).
Proof.
  destruct kv as [k v]. unfold print_property. cbn [fst snd].
  destruct v as [z|f|s|rows]; try reflexivity.
  cbn [shown_values flat_map app property_view].
  rewrite map_map. cbn [fr_shown].
  rewrite <- (map_map snd (fun x => x)), map_snd_combine_seq, map_id.
  unfold shown_values. induction rows as [|r rs IH]; simpl; [reflexivity|].
  now rewrite IH.
Qed.

Lemma shown_values_properties mat props :
  shown_values (flat_map print_property props)
  = map fr_shown (material_view mat props).
Proof.
  unfold material_view. induction props as [|kv rest IH]; [reflexivity|].
  cbn [flat_map].
  now rewrite shown_values_app, map_app, IH, (shown_values_property mat).
Qed.

Lemma shown_values_material kv :
  shown_values (print_material kv)
  = map fr_shown (material_view (fst kv) (snd kv)).
Proof.
  destruct kv as [mat props]. unfold print_material. cbn [fst snd].
  rewrite shown_values_app.
  change (shown_values [Line (newline ++ rule); Line ("Material: " ++ mat);
                        Line rule]) with (@nil pyval).
  cbn [app]. destruct props as [|kv rest]; [reflexivity|].
  apply shown_values_properties.
Qed.

(** X13.  The console report and the CSV export show the same values
    in the same order: the [Values] cells of the records that
    [save_to_csv] builds are the display texts of exactly the values
    that [print_material_properties] prints, one after the other. *)
Theorem report_shows_csv_values ms :
  map (fun row => get "Values" row) (flatten ms)
  = map (fun v => Some (CStrOf v))
        (shown_values (print_material_properties ms)).
Proof.
  rewrite flatten_flat, map_map.
  assert (S : shown_values (print_material_properties ms)
              = map fr_shown (flat_view ms)).
  { unfold print_material_properties, flat_view.
    induction ms as [|kv rest IH]; [reflexivity|]. cbn [flat_map].
    now rewrite shown_values_app, map_app, IH, shown_values_material. }
  rewrite S, map_map. apply map_ext. intros r.
  rewrite get_base_row_of_flat by (simpl; tauto). reflexivity.
Qed.

End CsvExtras.
